(** * Arawn task orchestration ([.angreal/task_*.py]): model and properties

    The four task files define twelve commands in four groups.  Every
    command is a short Python function that builds argument vectors, runs
    external tools through [subprocess.run(..., check=True)] inside a
    [with Flox(".")] block, and, for the runtime commands, walks the
    [runtimes/] directory.

    The embedding is shallow: a Python function is a computation in a small
    monad that reads a [world] (directory tree, working directory, behaviour
    of external tools), appends to a trace of observable events and either
    returns or raises.

    A function can be looked at in two ways.  [action] is the function
    called directly, with values for its parameters.  [dispatch] is the
    command as the dispatcher runs it: it passes one keyword per declared
    [@angreal.argument], named by the argument's [name], and the call
    fails before the body when the function has no such parameter.

    Two things are fixed for the time of one command.  The directory tree
    is the one the command starts in: the tools may write build output, but
    the entries of [runtimes/] and their manifests stay.  The behaviour of
    a tool is a function of its invocation; no command makes the same
    invocation twice (proved below), so any pattern of successes and
    failures over the invocations of a command is some world. *)

From stdpp Require Import gmap strings list sorting.
From Stdlib Require Import ZArith Ascii String.

Set Warnings "-register-all".
Local Open Scope string_scope.
Local Open Scope list_scope.

(** ** The directory tree *)

(** A path is the list of its components below the file-system root; the
    tree has plain files and directories, a directory being a finite map
    from entry names to nodes. *)
Definition path := list string.

Inductive node : Type :=
| File : node
| Dir (entries : gmap string node) : node.

Fixpoint resolve (n : node) (p : path) : option node :=
  match p with
  | [] => Some n
  | c :: p' =>
      match n with
      | Dir entries =>
          match entries !! c with
          | Some n' => resolve n' p'
          | None => None
          end
      | File => None
      end
  end.

(** Text of a path, as an f-string shows it. *)
Definition path_str (p : path) : string :=
  foldr (fun c acc => "/" +:+ c +:+ acc) "" p.

(** ** External tools *)

(** One call of [subprocess.run]: the argument vector and the [cwd=]
    keyword ([None] when it is not given). *)
Record invocation : Type := Invocation {
  argv : list string;
  workdir : option path
}.

#[global] Instance invocation_eq_dec : EqDecision invocation.
Proof. solve_decision. Defined.

(** What the operating system reports for a child process: it ran and
    exited with a return code, or it could not be started at all. *)
Inductive proc_result : Type :=
| Exited (returncode : Z)
| LaunchFailed.

Record world : Type := World {
  root : node;
  cwd : path;
  spawn : invocation -> proc_result
}.

(** ** Observable events, exceptions, and the monad *)

Inductive event : Type :=
| FloxEnter (env : string)
| FloxExit (env : string)
| Stdout (text : string)
| Run (i : invocation).

Inductive exn : Type :=
| FileNotFoundError (p : path)
| NotADirectoryError (p : path)
| CalledProcessError (returncode : Z) (cmd : list string)
| LaunchError (cmd : list string)
| TypeError (keyword : string).

Inductive outcome (A : Type) : Type :=
| Returned (a : A)
| Raised (e : exn).
Arguments Returned {A} a.
Arguments Raised {A} e.

Definition M (A : Type) : Type := world -> list event * outcome A.

Definition ret {A} (a : A) : M A := fun _ => ([], Returned a).

Definition raise {A} (e : exn) : M A := fun _ => ([], Raised e).

Definition bind {A B} (m : M A) (k : A -> M B) : M B := fun w =>
  match m w with
  | (tr, Returned a) => let '(tr', r) := k a w in (tr ++ tr', r)
  | (tr, Raised e) => (tr, Raised e)
  end.

Declare Scope py_scope.
Delimit Scope py_scope with py.
Notation "x <- m ;; k" := (bind m (fun x => k))
  (at level 100, m at next level, right associativity) : py_scope.
Notation "m ;; k" := (bind m (fun _ => k))
  (at level 100, right associativity) : py_scope.
Local Open Scope py_scope.

(** [for x in xs: body x] *)
Fixpoint for_ {A} (xs : list A) (body : A -> M unit) : M unit :=
  match xs with
  | [] => ret tt
  | x :: xs' => body x ;; for_ xs' body
  end.

(** [a and b] on booleans: [b] is evaluated only when [a] is true. *)
Definition and_ (a b : M bool) : M bool :=
  x <- a ;; if x then b else ret false.

(** ** The Python library functions the tasks call *)

Definition os_getcwd : M path := fun w => ([], Returned (cwd w)).

(** [os.path.join(p, c)] for a single component [c]. *)
Definition os_path_join (p : path) (c : string) : path := p ++ [c].

(** [os.listdir]: the entry names, in the order the map enumerates them
    (Python promises no order); it raises on a missing path and on a path
    that is not a directory. *)
Definition os_listdir (p : path) : M (list string) := fun w =>
  match resolve (root w) p with
  | Some (Dir entries) => ([], Returned (map fst (map_to_list entries)))
  | Some File => ([], Raised (NotADirectoryError p))
  | None => ([], Raised (FileNotFoundError p))
  end.

(** What [os.path.isdir] and [os.path.exists] answer in a world. *)
Definition is_dir (w : world) (p : path) : bool :=
  match resolve (root w) p with
  | Some (Dir _) => true
  | _ => false
  end.

Definition path_exists (w : world) (p : path) : bool :=
  match resolve (root w) p with
  | Some _ => true
  | None => false
  end.

Definition os_path_isdir (p : path) : M bool := fun w => ([], Returned (is_dir w p)).

Definition os_path_exists (p : path) : M bool := fun w =>
  ([], Returned (path_exists w p)).

(** Python compares [str] values code point by code point; on the bytes of
    the names this is [String.leb]. *)
Definition str_le (a b : string) : Prop := String.leb a b = true.

#[global] Instance str_le_dec a b : Decision (str_le a b).
Proof. unfold str_le. apply _. Defined.

(** [sorted(xs)] on a list of names. *)
Definition sorted (xs : list string) : list string := merge_sort str_le xs.

Definition print (text : string) : M unit := fun _ => ([Stdout text], Returned tt).

(** [subprocess.run(cmd, cwd=cwd, check=check)].  The child is started and
    awaited; with [check] a non-zero return code raises
    [CalledProcessError].  A child that cannot be started raises whatever
    [check] is.  No caller uses the returned [CompletedProcess]. *)
Definition subprocess_run (cmd : list string) (cwd : option path) (check : bool)
  : M unit := fun w =>
  let i := Invocation cmd cwd in
  ([Run i],
   match spawn w i with
   | Exited rc =>
       if check && negb (rc =? 0)%Z then Raised (CalledProcessError rc cmd)
       else Returned tt
   | LaunchFailed => Raised (LaunchError cmd)
   end).

(** Modelled from the spec: [angreal.integrations.flox.Flox] is imported,
    its code is not part of the task files.  The spec describes it as a
    scoped guard that "acquires an activated environment for the duration
    of a block, guarantees teardown on all exit paths (normal, early
    return, or propagated failure)".  [with Flox(env): body] therefore
    enters, runs the body, leaves on every path, and lets an exception of
    the body propagate. *)
Definition with_Flox {A} (env : string) (body : M A) : M A := fun w =>
  let '(tr, r) := body w in (FloxEnter env :: tr ++ [FloxExit env], r).

Definition nl : string := String "010"%char "".

(** ** task_build.py *)
Module task_build.

Definition build_workspace (release : bool) : M unit :=
  with_Flox "." (
    let cmd := ["cargo"; "build"; "--workspace"] in
    let cmd := if release then cmd ++ ["--release"] else cmd in
    subprocess_run cmd None true).

Definition build_runtimes (release : bool) : M unit :=
  with_Flox "." (
    here <- os_getcwd ;;
    let runtimes_dir := os_path_join here "runtimes" in
    names <- os_listdir runtimes_dir ;;
    for_ (sorted names) (fun entry =>
      let runtime_path := os_path_join runtimes_dir entry in
      is_runtime <- and_ (os_path_isdir runtime_path)
                         (os_path_exists (os_path_join runtime_path "Cargo.toml")) ;;
      if is_runtime then
        print (nl +:+ "--- Building runtime: " +:+ entry +:+ " ---") ;;
        let cmd := ["cargo"; "build"; "--target"; "wasm32-wasip1"] in
        let cmd := if release then cmd ++ ["--release"] else cmd in
        subprocess_run cmd (Some runtime_path) true
      else ret tt)).

End task_build.

(** ** task_check.py *)
Module task_check.

Definition _run_fmt (apply_fix : bool) : M unit :=
  if apply_fix then
    subprocess_run ["cargo"; "fmt"; "--all"] None true
  else
    subprocess_run ["cargo"; "fmt"; "--all"; "--"; "--check"] None true.

Definition _run_clippy (apply_fix : bool) : M unit :=
  let cmd := ["cargo"; "clippy"; "--workspace"] in
  let cmd := if apply_fix then (cmd ++ ["--fix"]) ++ ["--allow-dirty"] else cmd in
  let cmd := cmd ++ ["--"; "-D"; "warnings"] in
  subprocess_run cmd None true.

Definition check_all (check_only : bool) : M unit :=
  let apply := negb check_only in
  with_Flox "." (
    _run_fmt apply ;;
    _run_clippy apply ;;
    subprocess_run ["cargo"; "check"; "--workspace"] None true).

Definition check_workspace : M unit :=
  with_Flox "." (subprocess_run ["cargo"; "check"; "--workspace"] None true).

Definition check_fmt (check_only : bool) : M unit :=
  with_Flox "." (_run_fmt (negb check_only)).

Definition check_clippy (check_only : bool) : M unit :=
  with_Flox "." (_run_clippy (negb check_only)).

End task_check.

(** ** task_test.py *)
Module task_test.

Definition _run_unit : M unit :=
  subprocess_run ["cargo"; "test"; "--workspace"; "--"; "--test-threads=1"] None true.

Definition _run_runtimes : M unit :=
  here <- os_getcwd ;;
  let runtimes_dir := os_path_join here "runtimes" in
  names <- os_listdir runtimes_dir ;;
  for_ (sorted names) (fun entry =>
    let runtime_path := os_path_join runtimes_dir entry in
    is_runtime <- and_ (os_path_isdir runtime_path)
                       (os_path_exists (os_path_join runtime_path "Cargo.toml")) ;;
    if is_runtime then
      print (nl +:+ "--- Testing runtime: " +:+ entry +:+ " ---") ;;
      subprocess_run ["cargo"; "test"] (Some runtime_path) true
    else ret tt).

Definition test_all : M unit :=
  with_Flox "." (_run_unit ;; _run_runtimes).

Definition test_unit : M unit :=
  with_Flox "." _run_unit.

Definition test_runtimes : M unit :=
  with_Flox "." _run_runtimes.

Definition test_integration : M unit :=
  with_Flox "." (
    subprocess_run
      ["cargo"; "test"; "--workspace"; "--"; "--ignored"; "--test-threads=1"]
      None true).

End task_test.

(** ** task_docs.py *)
Module task_docs.

Definition docs_build : M unit :=
  here <- os_getcwd ;;
  let docs_dir := os_path_join here "docs" in
  found <- os_path_exists (os_path_join docs_dir "book.toml") ;;
  if negb found then
    print "Error: docs/book.toml not found"
  else
    with_Flox "." (
      subprocess_run ["mdbook"; "build"] (Some docs_dir) true ;;
      print (nl +:+ "Documentation built to "
                +:+ path_str (os_path_join docs_dir "book"))).

(** [port=None] stands for a call that leaves the keyword out, so that the
    default of the signature, ["3000"], applies. *)
Definition docs_serve (port : option string) : M unit :=
  let port := default "3000" port in
  here <- os_getcwd ;;
  let docs_dir := os_path_join here "docs" in
  found <- os_path_exists (os_path_join docs_dir "book.toml") ;;
  if negb found then
    print "Error: docs/book.toml not found"
  else
    with_Flox "." (
      let cmd := ["mdbook"; "serve"; "--port"; port; "--open"] in
      subprocess_run cmd (Some docs_dir) true).

End task_docs.

(** ** The twelve functions, called directly *)

(** A direct call of one of the twelve functions, as Python code calling
    [build_workspace(release=True)] would make it: a constructor carries
    the values of the parameters.  What the dispatcher passes for a command
    line is [dispatch], further down. *)
Inductive command : Type :=
| BuildWorkspace (release : bool)
| BuildRuntimes (release : bool)
| CheckAll (check_only : bool)
| CheckWorkspace
| CheckFmt (check_only : bool)
| CheckClippy (check_only : bool)
| TestAll
| TestUnit
| TestRuntimes
| TestIntegration
| DocsBuild
| DocsServe (port : option string).

Definition command_id (c : command) : string * string :=
  match c with
  | BuildWorkspace _ => ("build", "workspace")
  | BuildRuntimes _ => ("build", "runtimes")
  | CheckAll _ => ("check", "all")
  | CheckWorkspace => ("check", "workspace")
  | CheckFmt _ => ("check", "fmt")
  | CheckClippy _ => ("check", "clippy")
  | TestAll => ("test", "all")
  | TestUnit => ("test", "unit")
  | TestRuntimes => ("test", "runtimes")
  | TestIntegration => ("test", "integration")
  | DocsBuild => ("docs", "build")
  | DocsServe _ => ("docs", "serve")
  end.

Definition action (c : command) : M unit :=
  match c with
  | BuildWorkspace release => task_build.build_workspace release
  | BuildRuntimes release => task_build.build_runtimes release
  | CheckAll check_only => task_check.check_all check_only
  | CheckWorkspace => task_check.check_workspace
  | CheckFmt check_only => task_check.check_fmt check_only
  | CheckClippy check_only => task_check.check_clippy check_only
  | TestAll => task_test.test_all
  | TestUnit => task_test.test_unit
  | TestRuntimes => task_test.test_runtimes
  | TestIntegration => task_test.test_integration
  | DocsBuild => task_docs.docs_build
  | DocsServe port => task_docs.docs_serve port
  end.

(** Modelled from the spec: the dispatcher that calls the registered
    function and turns its result into the exit status of the process is
    angreal's, not part of the task files.  "Exit status: 0 on full
    success; non-zero ... otherwise": a function that returns gives 0, an
    exception that reaches the dispatcher gives a non-zero status. *)
Definition exit_status {A} (r : outcome A) : Z :=
  match r with
  | Returned _ => 0
  | Raised _ => 1
  end.

(** ** Reading a trace *)

Definition trace_of {A} (m : M A) (w : world) : list event := fst (m w).
Definition result_of {A} (m : M A) (w : world) : outcome A := snd (m w).

(** The invocations attempted, in order. *)
Fixpoint runs (tr : list event) : list invocation :=
  match tr with
  | [] => []
  | Run i :: tr' => i :: runs tr'
  | _ :: tr' => runs tr'
  end.

(** How often the guard was released. *)
Fixpoint releases (tr : list event) : nat :=
  match tr with
  | [] => 0
  | FloxExit _ :: tr' => S (releases tr')
  | _ :: tr' => releases tr'
  end.

(** An invocation succeeds when the child exits with return code 0. *)
Definition succeeds (w : world) (i : invocation) : bool :=
  match spawn w i with
  | Exited rc => (rc =? 0)%Z
  | LaunchFailed => false
  end.

Definition is_discovery_error (e : exn) : bool :=
  match e with
  | FileNotFoundError _ | NotADirectoryError _ => true
  | _ => false
  end.

(** ** Sample worlds *)

Definition crate : node := Dir {[ "Cargo.toml" := File ]}.

(** [runtimes/] holds [alpha/] and [gamma/] with a manifest, [beta/]
    without one and a plain file. *)
Definition sample_entries : gmap string node :=
  {[ "gamma" := crate; "alpha" := crate; "beta" := Dir ∅; "README.md" := File ]}.

Definition sample_runtimes : node := Dir sample_entries.

Definition sample_root : node :=
  Dir {[ "proj" := Dir {[ "runtimes" := sample_runtimes;
                          "docs" := Dir {[ "book.toml" := File ]} ]} ]}.

Definition all_pass : invocation -> proc_result := fun _ => Exited 0.

Definition sample_world : world := World sample_root ["proj"] all_pass.

(** The same project without [runtimes/] and without [docs/]. *)
Definition bare_world : world :=
  World (Dir {[ "proj" := Dir ∅ ]}) ["proj"] all_pass.

(** [runtimes/] exists and holds nothing that qualifies. *)
Definition idle_entries : gmap string node :=
  {[ "beta" := Dir ∅; "notes.txt" := File ]}.

Definition idle_world : world :=
  World (Dir {[ "proj" := Dir {[ "runtimes" := Dir idle_entries ]} ]}) ["proj"] all_pass.

(** A project with [alpha/], [gamma/] and [omega/] in which every tool
    run in [gamma/] fails. *)
Definition gamma_fails : invocation -> proc_result := fun i =>
  if decide (workdir i = Some ["proj"; "runtimes"; "gamma"]) then Exited 101
  else Exited 0.

Definition gamma_world : world :=
  World (Dir {[ "proj" := Dir {[ "runtimes" := Dir (<["omega" := crate]> sample_entries) ]} ]})
        ["proj"] gamma_fails.

(** A world in which every tool fails with return code 101. *)
Definition failing_bare_world : world :=
  World (Dir {[ "proj" := Dir ∅ ]}) ["proj"] (fun _ => Exited 101).

(** ** Discovery and iteration, as the runtime commands combine them *)

Definition runtimes_dir (w : world) : path := os_path_join (cwd w) "runtimes".

Definition docs_dir (w : world) : path := os_path_join (cwd w) "docs".

Definition docs_marker (w : world) : path := os_path_join (docs_dir w) "book.toml".

(** The test the loops of [build_runtimes] and [_run_runtimes] apply to an
    entry before they work on it. *)
Definition is_runtime (w : world) (entry : string) : bool :=
  is_dir w (os_path_join (runtimes_dir w) entry)
  && path_exists w (os_path_join (os_path_join (runtimes_dir w) entry) "Cargo.toml").

(** The loop header of both functions with the per-target work left out:
    list [runtimes/], sort the names, keep the entries that pass the test. *)
Fixpoint keep (xs : list string) (test : string -> M bool) : M (list string) :=
  match xs with
  | [] => ret []
  | x :: xs' =>
      b <- test x ;;
      rest <- keep xs' test ;;
      ret (if b then x :: rest else rest)
  end.

Definition discover : M (list string) :=
  here <- os_getcwd ;;
  let runtimes_dir := os_path_join here "runtimes" in
  names <- os_listdir runtimes_dir ;;
  keep (sorted names) (fun entry =>
    let runtime_path := os_path_join runtimes_dir entry in
    and_ (os_path_isdir runtime_path)
         (os_path_exists (os_path_join runtime_path "Cargo.toml"))).

(** The loop both functions share, with the work on a runtime left open:
    [work runtime_path entry] stands for the body of the [if]. *)
Definition walk_runtimes (work : path -> string -> M unit) : M unit :=
  here <- os_getcwd ;;
  let runtimes_dir := os_path_join here "runtimes" in
  names <- os_listdir runtimes_dir ;;
  for_ (sorted names) (fun entry =>
    let runtime_path := os_path_join runtimes_dir entry in
    is_runtime <- and_ (os_path_isdir runtime_path)
                       (os_path_exists (os_path_join runtime_path "Cargo.toml")) ;;
    if is_runtime then work runtime_path entry else ret tt).

(** What listing a path that is not a directory raises. *)
Definition listing_error (w : world) (p : path) : exn :=
  if path_exists w p then NotADirectoryError p else FileNotFoundError p.

(** Targets a fail-fast iteration reaches: all up to and including the
    first one whose invocation fails. *)
Fixpoint reached (w : world) (inv : string -> invocation) (targets : list string)
  : list string :=
  match targets with
  | [] => []
  | t :: targets' =>
      t :: (if succeeds w (inv t) then reached w inv targets' else [])
  end.

Definition build_marker (entry : string) : string :=
  nl +:+ "--- Building runtime: " +:+ entry +:+ " ---".

Definition build_invocation (w : world) (release : bool) (entry : string)
  : invocation :=
  Invocation
    (["cargo"; "build"; "--target"; "wasm32-wasip1"]
       ++ (if release then ["--release"] else []))
    (Some (os_path_join (runtimes_dir w) entry)).

Definition test_marker (entry : string) : string :=
  nl +:+ "--- Testing runtime: " +:+ entry +:+ " ---".

Definition test_invocation (w : world) (entry : string) : invocation :=
  Invocation ["cargo"; "test"] (Some (os_path_join (runtimes_dir w) entry)).

Definition unit_invocation : invocation :=
  Invocation ["cargo"; "test"; "--workspace"; "--"; "--test-threads=1"] None.

(** ** Classes of commands and outcomes used in the statements *)

Definition needs_discovery (c : command) : bool :=
  match c with
  | BuildRuntimes _ | TestRuntimes | TestAll => true
  | _ => false
  end.

(** The docs commands test for [docs/book.toml] before anything else. *)
Definition precondition_fails (c : command) (w : world) : bool :=
  match c with
  | DocsBuild | DocsServe _ => negb (path_exists w (docs_marker w))
  | _ => false
  end.

(** Invocations a command makes before it lists [runtimes/]. *)
Definition workspace_stage (c : command) : list invocation :=
  match c with
  | TestAll => [unit_invocation]
  | _ => []
  end.

Definition all_succeed (w : world) (c : command) : Prop :=
  forall i, In i (runs (trace_of (action c) w)) -> succeeds w i = true.

(** A computation is fail-fast in a world when a failing invocation is the
    last one it attempts and makes it raise. *)
Definition fail_fast {A} (w : world) (x : list event * outcome A) : Prop :=
  forall pre i post,
    runs (fst x) = pre ++ i :: post ->
    succeeds w i = false ->
    post = [] /\ exists e, snd x = Raised e.

(** A computation raises only through a failing invocation. *)
Definition raises_by_run {A} (w : world) (x : list event * outcome A) : Prop :=
  forall e, snd x = Raised e ->
    exists i, In i (runs (fst x)) /\ succeeds w i = false.

(** A computation never touches the guard. *)
Definition guard_free {A} (m : M A) : Prop :=
  forall w, releases (fst (m w)) = 0.

(** The first half of the short-circuit property, read literally. *)
Definition exit_zero_when_all_succeed (c : command) (w : world) : Prop :=
  all_succeed w c -> exit_status (result_of (action c) w) = 0%Z.

(** A missing [runtimes/] surfaces as a discovery error, read literally. *)
Definition fails_with_discovery_error (c : command) (w : world) : Prop :=
  exists e, result_of (action c) w = Raised e /\ is_discovery_error e = true.

(** ** Further readings of a run *)

(** The exception [subprocess.run(..., check=True)] raises for an
    invocation that fails in a world: [CalledProcessError] carries the
    return code and the argument vector. *)
Definition tool_error (w : world) (i : invocation) : exn :=
  match spawn w i with
  | Exited rc => CalledProcessError rc (argv i)
  | LaunchFailed => LaunchError (argv i)
  end.

Definition is_guard_event (e : event) : bool :=
  match e with
  | FloxEnter _ | FloxExit _ => true
  | _ => false
  end.

Definition integration_invocation : invocation :=
  Invocation ["cargo"; "test"; "--workspace"; "--"; "--ignored"; "--test-threads=1"]
             None.

(** The commands whose body is one call of [subprocess.run], with the
    invocation they make. *)
Definition single_invocation (c : command) : option invocation :=
  match c with
  | BuildWorkspace release =>
      Some (Invocation (["cargo"; "build"; "--workspace"]
                          ++ (if release then ["--release"] else [])) None)
  | CheckWorkspace => Some (Invocation ["cargo"; "check"; "--workspace"] None)
  | CheckFmt check_only =>
      Some (Invocation (["cargo"; "fmt"; "--all"]
                          ++ (if check_only then ["--"; "--check"] else [])) None)
  | CheckClippy check_only =>
      Some (Invocation (["cargo"; "clippy"; "--workspace"]
                          ++ (if check_only then [] else ["--fix"; "--allow-dirty"])
                          ++ ["--"; "-D"; "warnings"]) None)
  | TestUnit => Some unit_invocation
  | TestIntegration => Some integration_invocation
  | _ => None
  end.

(** The commands that call [os.getcwd], [os.listdir] or [os.path]. *)
Definition reads_tree (c : command) : bool :=
  match c with
  | BuildRuntimes _ | TestAll | TestRuntimes | DocsBuild | DocsServe _ => true
  | _ => false
  end.

(** A computation that raises does so with the error of the last
    invocation it made. *)
Definition raised_by_last {A} (w : world) (x : list event * outcome A) : Prop :=
  forall e, snd x = Raised e ->
    exists i, last (runs (fst x)) = Some i
              /\ succeeds w i = false /\ e = tool_error w i.

(** An invocation made with [cwd=] runs in a directory of the tree: in
    [docs/], or in an entry of [runtimes/] that passed the test. *)
Definition workdir_ok (w : world) (i : invocation) : Prop :=
  forall p, workdir i = Some p ->
    is_dir w p = true
    /\ (p = docs_dir w
        \/ exists entry, p = os_path_join (runtimes_dir w) entry
                         /\ is_runtime w entry = true).

(** A computation whose trace holds no guard event. *)
Definition guardless {A} (m : M A) : Prop :=
  forall w, Forall (fun e => is_guard_event e = false) (fst (m w)).

(** The first target, in order, whose invocation fails. *)
Definition first_failure (w : world) (inv : string -> invocation)
    (targets : list string) : option string :=
  List.find (fun t => negb (succeeds w (inv t))) targets.

(** The sample project with unit tests that fail. *)
Definition unit_fails_world : world :=
  World sample_root ["proj"] (fun i =>
    if decide (i = unit_invocation) then Exited 101 else Exited 0).

(** ** The commands as the dispatcher runs them *)

(** The twelve registered commands, by group and name. *)
Inductive task : Type :=
| TBuildWorkspace
| TBuildRuntimes
| TCheckAll
| TCheckWorkspace
| TCheckFmt
| TCheckClippy
| TTestAll
| TTestUnit
| TTestRuntimes
| TTestIntegration
| TDocsBuild
| TDocsServe.

(** One [@angreal.argument(...)] decorator.  [is_flag] is not given by any
    decorator of the task files and has its default, [False]. *)
Record argument : Type := Argument {
  arg_name : string;
  arg_long : option string;
  arg_short : option string;
  arg_takes_value : bool;
  arg_is_flag : bool
}.

(** The decorators of each function, as written. *)
Definition arguments (t : task) : list argument :=
  match t with
  | TBuildWorkspace | TBuildRuntimes =>
      [Argument "--release" (Some "release") None false false]
  | TCheckAll | TCheckFmt | TCheckClippy =>
      [Argument "check_only" (Some "check-only") None false false]
  | TDocsServe => [Argument "--port" None (Some "p") true false]
  | _ => []
  end.

(** The parameters of each function, from its [def] line. *)
Definition parameters (t : task) : list string :=
  match t with
  | TBuildWorkspace | TBuildRuntimes => ["release"]
  | TCheckAll | TCheckFmt | TCheckClippy => ["check_only"]
  | TDocsServe => ["port"]
  | _ => []
  end.

(** The values a keyword can carry. *)
Inductive pyval : Type :=
| PyNone
| PyBool (b : bool)
| PyStr (s : string).

(** [not v] is [negb (truthy v)]. *)
Definition truthy (v : pyval) : bool :=
  match v with
  | PyNone => false
  | PyBool b => b
  | PyStr s => negb (String.eqb s "")
  end.

(** A command line the parser accepted: the declared arguments that occur
    on it, by [name], each with the value written after it, if any. *)
Definition cmdline := list (string * option string).

Fixpoint occurrence (name : string) (cl : cmdline) : option (option string) :=
  match cl with
  | [] => None
  | (n, v) :: cl' => if String.eqb n name then Some v else occurrence name cl'
  end.

(** Modelled from the spec: the dispatcher is angreal's, imported by the
    task files and not part of them ("raw arguments are matched against
    the command's declared flags", then the bound action is called).  It
    calls the function with one keyword for every declared argument, named
    by the argument's [name].  The value is a Boolean only for an argument
    declared [is_flag=True]; one declared [takes_value=True] carries the
    string written on the command line; any other carries [None]. *)
Definition passed (a : argument) (cl : cmdline) : pyval :=
  if arg_is_flag a then
    PyBool (match occurrence (arg_name a) cl with Some _ => true | None => false end)
  else if arg_takes_value a then
    match occurrence (arg_name a) cl with
    | Some (Some v) => PyStr v
    | _ => PyNone
    end
  else PyNone.

Definition kwargs (t : task) (cl : cmdline) : list (string * pyval) :=
  map (fun a => (arg_name a, passed a cl)) (arguments t).

(** Python binds keywords to parameters before the body runs: the first
    keyword that is no parameter of the function raises [TypeError]. *)
Definition unexpected_keyword (t : task) (cl : cmdline) : option string :=
  List.find (fun k => negb (bool_decide (k ∈ parameters t))) (map fst (kwargs t cl)).

(** The value bound to a parameter: that of the keyword of this name, and
    the default of the signature when no such keyword is passed. *)
Definition bound_flag (t : task) (cl : cmdline) (param : string) : bool :=
  match List.find (fun kv => String.eqb (fst kv) param) (kwargs t cl) with
  | Some (_, v) => truthy v
  | None => false
  end.

Definition bound_port (t : task) (cl : cmdline) : option string :=
  match List.find (fun kv => String.eqb (fst kv) "port") (kwargs t cl) with
  | Some (_, PyStr s) => Some s
  | _ => None
  end.

(** The call made once every keyword is bound.  The functions use
    [release] and [check_only] as conditions only, so the Boolean of the
    direct call is the truth value of what was passed. *)
Definition call_of (t : task) (cl : cmdline) : command :=
  match t with
  | TBuildWorkspace => BuildWorkspace (bound_flag t cl "release")
  | TBuildRuntimes => BuildRuntimes (bound_flag t cl "release")
  | TCheckAll => CheckAll (bound_flag t cl "check_only")
  | TCheckWorkspace => CheckWorkspace
  | TCheckFmt => CheckFmt (bound_flag t cl "check_only")
  | TCheckClippy => CheckClippy (bound_flag t cl "check_only")
  | TTestAll => TestAll
  | TTestUnit => TestUnit
  | TTestRuntimes => TestRuntimes
  | TTestIntegration => TestIntegration
  | TDocsBuild => DocsBuild
  | TDocsServe => DocsServe (bound_port t cl)
  end.

Definition dispatch (t : task) (cl : cmdline) : M unit :=
  match unexpected_keyword t cl with
  | Some k => raise (TypeError k)
  | None => action (call_of t cl)
  end.

(** Whether the keywords of a command bind to its function. *)
Definition binds (t : task) : bool :=
  match unexpected_keyword t [] with
  | Some _ => false
  | None => true
  end.

(** The commands whose run reaches [os.listdir]. *)
Definition reaches_discovery (t : task) : bool :=
  match t with
  | TTestAll | TTestRuntimes => true
  | _ => false
  end.

(** Invocations a command makes before it lists [runtimes/]. *)
Definition stage_before_discovery (t : task) : list invocation :=
  match t with
  | TTestAll => [unit_invocation]
  | _ => []
  end.

(** The commands that run one tool once, with the invocation made. *)
Definition task_invocation (t : task) : option invocation :=
  match t with
  | TCheckWorkspace => Some (Invocation ["cargo"; "check"; "--workspace"] None)
  | TCheckFmt => Some (Invocation ["cargo"; "fmt"; "--all"] None)
  | TCheckClippy =>
      Some (Invocation ["cargo"; "clippy"; "--workspace"; "--fix"; "--allow-dirty";
                        "--"; "-D"; "warnings"] None)
  | TTestUnit => Some unit_invocation
  | TTestIntegration => Some integration_invocation
  | _ => None
  end.

(** The docs command that tests for [docs/book.toml] when run. *)
Definition config_missing (t : task) (w : world) : bool :=
  match t with
  | TDocsBuild => negb (path_exists w (docs_marker w))
  | _ => false
  end.

(** Command lines used in examples: the flag of the command given. *)
Definition with_check_only : cmdline := [("check_only", None)].
Definition with_release : cmdline := [("--release", None)].
Definition with_port (v : string) : cmdline := [("--port", Some v)].

(** * Properties *)

(** ** The order on names *)

Lemma str_compare_refl (a : string) : String.compare a a = Eq.
Proof.
  induction a as [|c a IH]; simpl; [reflexivity|].
  unfold Ascii.compare. rewrite N.compare_refl. exact IH.
Qed.

Lemma str_compare_le_trans (a b c : string) :
  String.compare a b <> Gt -> String.compare b c <> Gt -> String.compare a c <> Gt.
Proof.
  revert b c. induction a as [|x a IH]; intros [|y b] [|z c]; simpl; try congruence.
  unfold Ascii.compare.
  destruct (N.compare_spec (N_of_ascii x) (N_of_ascii y)) as [Hxy|Hxy|Hxy];
    destruct (N.compare_spec (N_of_ascii y) (N_of_ascii z)) as [Hyz|Hyz|Hyz];
    destruct (N.compare_spec (N_of_ascii x) (N_of_ascii z)) as [Hxz|Hxz|Hxz];
    try congruence; try lia.
  apply IH.
Qed.

#[global] Instance str_le_total : Total str_le.
Proof. intros a b. apply String.leb_total. Qed.

#[global] Instance str_le_trans : Transitive str_le.
Proof.
  intros a b c. unfold str_le, String.leb. intros Hab Hbc.
  pose proof (str_compare_le_trans a b c) as H.
  destruct (String.compare a b), (String.compare b c), (String.compare a c);
    try reflexivity; try discriminate; exfalso; apply H; congruence.
Qed.

#[global] Instance str_le_antisym : AntiSymm (=) str_le.
Proof. intros a b. apply String.leb_antisym. Qed.

#[global] Instance str_le_refl : Reflexive str_le.
Proof. intros a. unfold str_le, String.leb. by rewrite str_compare_refl. Qed.

Lemma sorted_StronglySorted (xs : list string) : StronglySorted str_le (sorted xs).
Proof. apply StronglySorted_merge_sort; apply _. Qed.

Lemma sorted_Permutation (xs : list string) : sorted xs ≡ₚ xs.
Proof. apply merge_sort_Permutation. Qed.

(** Sorting forgets the order in which the names were listed. *)
Lemma sorted_order_irrelevant (xs ys : list string) : xs ≡ₚ ys -> sorted xs = sorted ys.
Proof.
  intros Hp. apply (StronglySorted_unique str_le); try apply sorted_StronglySorted.
  by rewrite !sorted_Permutation.
Qed.

Lemma StronglySorted_filter {A} (R : relation A) (f : A -> bool) (l : list A) :
  StronglySorted R l -> StronglySorted R (List.filter f l).
Proof.
  induction 1 as [|x l Hl IH Hx]; simpl; [constructor|].
  destruct (f x); [|exact IH].
  constructor; [exact IH|].
  rewrite List.Forall_forall in *. intros y Hy.
  apply Hx. apply List.filter_In in Hy. tauto.
Qed.

(** ** Traces *)

Lemma runs_app (a b : list event) : runs (a ++ b) = runs a ++ runs b.
Proof.
  induction a as [|e a IH]; simpl; [reflexivity|].
  destruct e; simpl; by rewrite IH.
Qed.

Lemma releases_app (a b : list event) : releases (a ++ b) = (releases a + releases b)%nat.
Proof.
  induction a as [|e a IH]; simpl; [reflexivity|].
  destruct e; simpl; by rewrite IH.
Qed.

(** Where an element of a concatenation sits. *)
Lemma app_split_at {A} (l1 l2 pre post : list A) (x : A) :
  l1 ++ l2 = pre ++ x :: post ->
  (exists post1, l1 = pre ++ x :: post1 /\ post = post1 ++ l2)
  \/ (exists pre2, pre = l1 ++ pre2 /\ l2 = pre2 ++ x :: post).
Proof.
  revert pre. induction l1 as [|a l1 IH]; intros pre H; simpl in H.
  - right. exists pre. by subst.
  - destruct pre as [|p pre]; simpl in H; injection H as -> H.
    + left. exists l1. by subst.
    + destruct (IH _ H) as [(post1 & -> & ->)|(pre2 & -> & ->)].
      * left. by exists post1.
      * right. by exists pre2.
Qed.

(** ** The monad: what [bind] and [with_Flox] do to a run *)

Lemma bind_returned {A B} (m : M A) (k : A -> M B) w tr a :
  m w = (tr, Returned a) ->
  bind m k w = (tr ++ fst (k a w), snd (k a w)).
Proof. unfold bind. intros ->. by destruct (k a w). Qed.

Lemma bind_raised {A B} (m : M A) (k : A -> M B) w tr e :
  m w = (tr, Raised e) -> bind m k w = (tr, Raised e).
Proof. unfold bind. by intros ->. Qed.

Lemma with_Flox_run {A} (env : string) (body : M A) w :
  with_Flox env body w = (FloxEnter env :: fst (body w) ++ [FloxExit env], snd (body w)).
Proof. unfold with_Flox. by destruct (body w). Qed.

(** ** Fail-fast, piece by piece *)

Section FailFast.
Context (w : world).

Lemma fail_fast_quiet {A} (x : list event * outcome A) :
  runs (fst x) = [] -> fail_fast w x.
Proof. intros Hq pre i post H. rewrite Hq in H. by destruct pre. Qed.

Lemma run_raises_iff (cmd : list string) (dir : option path) :
  succeeds w (Invocation cmd dir) = false <->
  exists e, snd (subprocess_run cmd dir true w) = Raised e.
Proof.
  unfold succeeds, subprocess_run; simpl.
  destruct (spawn w (Invocation cmd dir)) as [rc|]; simpl.
  - destruct (rc =? 0)%Z; simpl; split; eauto; try congruence.
    intros [e He]; congruence.
  - split; eauto.
Qed.

Lemma fail_fast_run (cmd : list string) (dir : option path) :
  fail_fast w (subprocess_run cmd dir true w).
Proof.
  intros pre i post H Hi. change (runs _) with [Invocation cmd dir] in H.
  destruct pre as [|? [|? ?]]; simplify_eq/=.
  split; [done|]. by apply run_raises_iff.
Qed.

Lemma fail_fast_bind {A B} (m : M A) (k : A -> M B) :
  fail_fast w (m w) -> (forall a, fail_fast w (k a w)) -> fail_fast w (bind m k w).
Proof.
  intros Hm Hk. destruct (m w) as [tr [a|e]] eqn:E.
  - rewrite (bind_returned _ _ _ _ _ E). intros pre i post H Hi; simpl in *.
    rewrite runs_app in H.
    destruct (app_split_at _ _ _ _ _ H) as [(post1 & H1 & ->)|(pre2 & -> & H2)].
    + destruct (Hm _ _ _ H1 Hi) as [_ [e He]]. discriminate.
    + exact (Hk a _ _ _ H2 Hi).
  - rewrite (bind_raised _ _ _ _ _ E). intros pre i post H Hi.
    destruct (Hm _ _ _ H Hi) as [? _]. eauto.
Qed.

Lemma fail_fast_for {A} (xs : list A) (body : A -> M unit) :
  (forall x, fail_fast w (body x w)) -> fail_fast w (for_ xs body w).
Proof.
  intros Hb. induction xs as [|x xs IH]; simpl.
  - by apply fail_fast_quiet.
  - apply fail_fast_bind; auto.
Qed.

Lemma fail_fast_with_Flox {A} (env : string) (body : M A) :
  fail_fast w (body w) -> fail_fast w (with_Flox env body w).
Proof.
  intros Hb pre i post H Hi. rewrite with_Flox_run in *; simpl in *.
  rewrite runs_app, app_nil_r in H. exact (Hb _ _ _ H Hi).
Qed.

(** A raise comes from a failing invocation, piece by piece. *)

Lemma raises_by_run_returned {A} (x : list event * outcome A) (a : A) :
  snd x = Returned a -> raises_by_run w x.
Proof. intros H e He. congruence. Qed.

Lemma raises_by_run_run (cmd : list string) (dir : option path) (check : bool) :
  raises_by_run w (subprocess_run cmd dir check w).
Proof.
  intros e He. exists (Invocation cmd dir). split; [by left|].
  revert He. unfold succeeds, subprocess_run; simpl.
  destruct (spawn w _) as [rc|]; [|done].
  destruct (rc =? 0)%Z; [|done]. by rewrite andb_false_r.
Qed.

Lemma raises_by_run_bind {A B} (m : M A) (k : A -> M B) :
  raises_by_run w (m w) -> (forall a, raises_by_run w (k a w)) ->
  raises_by_run w (bind m k w).
Proof.
  intros Hm Hk. destruct (m w) as [tr [a|e]] eqn:E.
  - rewrite (bind_returned _ _ _ _ _ E). intros e He; simpl in *.
    destruct (Hk a e He) as (i & Hin & Hi). exists i. split; [|done].
    rewrite runs_app. apply in_or_app. by right.
  - rewrite (bind_raised _ _ _ _ _ E). intros e' He'.
    apply (Hm e). reflexivity.
Qed.

Lemma raises_by_run_for {A} (xs : list A) (body : A -> M unit) :
  (forall x, raises_by_run w (body x w)) -> raises_by_run w (for_ xs body w).
Proof.
  intros Hb. induction xs as [|x xs IH]; simpl.
  - by apply (raises_by_run_returned _ tt).
  - apply raises_by_run_bind; auto.
Qed.

Lemma raises_by_run_with_Flox {A} (env : string) (body : M A) :
  raises_by_run w (body w) -> raises_by_run w (with_Flox env body w).
Proof.
  intros Hb e He. rewrite with_Flox_run in *; simpl in *.
  rewrite runs_app, app_nil_r. exact (Hb e He).
Qed.

End FailFast.

(** The guard is touched by [with Flox] only. *)

Lemma guard_free_bind {A B} (m : M A) (k : A -> M B) :
  guard_free m -> (forall a, guard_free (k a)) -> guard_free (bind m k).
Proof.
  intros Hm Hk w. specialize (Hm w). destruct (m w) as [tr [a|e]] eqn:E.
  - rewrite (bind_returned _ _ _ _ _ E); simpl in *.
    rewrite releases_app, Hm. apply Hk.
  - by rewrite (bind_raised _ _ _ _ _ E).
Qed.

Lemma guard_free_for {A} (xs : list A) (body : A -> M unit) :
  (forall x, guard_free (body x)) -> guard_free (for_ xs body).
Proof.
  intros Hb. induction xs as [|x xs IH]; simpl; [done|].
  apply guard_free_bind; auto.
Qed.

Lemma guard_free_run cmd dir check : guard_free (subprocess_run cmd dir check).
Proof. done. Qed.

Lemma releases_with_Flox {A} (env : string) (body : M A) (w : world) :
  guard_free body -> releases (fst (with_Flox env body w)) = 1%nat.
Proof.
  intros Hb. rewrite with_Flox_run; simpl.
  rewrite releases_app, Hb. reflexivity.
Qed.

(** ** The runtime loop: discovery, then iteration *)

Lemma build_runtimes_walk (release : bool) :
  task_build.build_runtimes release
  = with_Flox "." (walk_runtimes (fun runtime_path entry =>
      print (build_marker entry) ;;
      subprocess_run (["cargo"; "build"; "--target"; "wasm32-wasip1"]
                        ++ (if release then ["--release"] else []))
                     (Some runtime_path) true)).
Proof. by destruct release. Qed.

Lemma run_runtimes_walk :
  task_test._run_runtimes
  = walk_runtimes (fun runtime_path entry =>
      print (test_marker entry) ;;
      subprocess_run ["cargo"; "test"] (Some runtime_path) true).
Proof. reflexivity. Qed.

Lemma test_is_runtime (w : world) (entry : string) :
  and_ (os_path_isdir (os_path_join (runtimes_dir w) entry))
       (os_path_exists
          (os_path_join (os_path_join (runtimes_dir w) entry) "Cargo.toml")) w
  = ([], Returned (is_runtime w entry)).
Proof.
  unfold and_, bind, os_path_isdir, os_path_exists, is_runtime, ret.
  by destruct (is_dir w _).
Qed.

Lemma keep_filter (w : world) (xs : list string) (test : string -> M bool)
    (f : string -> bool) :
  (forall x, test x w = ([], Returned (f x))) ->
  keep xs test w = ([], Returned (List.filter f xs)).
Proof.
  intros Ht. induction xs as [|x xs IH]; simpl; [done|].
  unfold bind at 1. rewrite Ht. unfold bind. rewrite IH. simpl.
  by destruct (f x).
Qed.

Lemma guarded_for (w : world) (xs : list string) (test : string -> M bool)
    (f : string -> bool) (work : string -> M unit) :
  (forall x, test x w = ([], Returned (f x))) ->
  for_ xs (fun x => b <- test x ;; if b then work x else ret tt) w
  = for_ (List.filter f xs) work w.
Proof.
  intros Ht. induction xs as [|x xs IH]; simpl; [done|].
  unfold bind at 1. unfold bind at 1. rewrite Ht. simpl.
  destruct (f x); simpl.
  - unfold bind at 2. destruct (work x w) as [tr [[]|e]]; [|done].
    by rewrite IH.
  - rewrite IH. by destruct (for_ _ work w).
Qed.

Lemma discover_listed (w : world) (entries : gmap string node) :
  resolve (root w) (runtimes_dir w) = Some (Dir entries) ->
  discover w
  = ([], Returned (List.filter (is_runtime w) (sorted (map fst (map_to_list entries))))).
Proof.
  intros Hd. unfold discover, bind at 1, os_getcwd. simpl.
  unfold bind at 1, os_listdir. fold (runtimes_dir w). rewrite Hd. simpl.
  erewrite keep_filter; [reflexivity|]. apply test_is_runtime.
Qed.

Lemma discover_unlisted (w : world) :
  is_dir w (runtimes_dir w) = false ->
  discover w = ([], Raised (listing_error w (runtimes_dir w))).
Proof.
  unfold is_dir, listing_error, path_exists. intros Hd.
  unfold discover, bind at 1, os_getcwd. simpl.
  unfold bind at 1, os_listdir. fold (runtimes_dir w).
  by destruct (resolve (root w) (runtimes_dir w)) as [[|?]|].
Qed.

(** Discovery returns exactly when [runtimes/] is a directory. *)
Lemma discover_returns_inv (w : world) (targets : list string) :
  discover w = ([], Returned targets) ->
  exists entries, resolve (root w) (runtimes_dir w) = Some (Dir entries).
Proof.
  intros H. destruct (is_dir w (runtimes_dir w)) eqn:Hd.
  - unfold is_dir in Hd.
    destruct (resolve (root w) (runtimes_dir w)) as [[|entries]|]; try discriminate.
    by exists entries.
  - rewrite (discover_unlisted w Hd) in H. discriminate.
Qed.

Lemma walk_listed (w : world) (work : path -> string -> M unit) (targets : list string) :
  discover w = ([], Returned targets) ->
  walk_runtimes work w
  = for_ targets (fun entry => work (os_path_join (runtimes_dir w) entry) entry) w.
Proof.
  intros Hdisc. destruct (discover_returns_inv _ _ Hdisc) as [entries Hd].
  rewrite (discover_listed _ _ Hd) in Hdisc. injection Hdisc as <-.
  unfold walk_runtimes, bind at 1, os_getcwd. simpl.
  unfold bind at 1, os_listdir. fold (runtimes_dir w). rewrite Hd. simpl.
  rewrite (guarded_for w _ _ (is_runtime w)
             (fun entry => work (os_path_join (runtimes_dir w) entry) entry)).
  - by destruct (for_ _ _ w).
  - apply test_is_runtime.
Qed.

Lemma walk_unlisted (w : world) (work : path -> string -> M unit) :
  is_dir w (runtimes_dir w) = false ->
  walk_runtimes work w = ([], Raised (listing_error w (runtimes_dir w))).
Proof.
  unfold is_dir, listing_error, path_exists. intros Hd.
  unfold walk_runtimes, bind at 1, os_getcwd. simpl.
  unfold bind at 1, os_listdir. fold (runtimes_dir w).
  by destruct (resolve (root w) (runtimes_dir w)) as [[|?]|].
Qed.

Lemma run_succeeds (w : world) (cmd : list string) (dir : option path) :
  succeeds w (Invocation cmd dir) = true ->
  subprocess_run cmd dir true w = ([Run (Invocation cmd dir)], Returned tt).
Proof.
  unfold succeeds, subprocess_run. destruct (spawn w _) as [rc|]; [|done].
  by intros ->.
Qed.

Lemma run_fails (w : world) (cmd : list string) (dir : option path) :
  succeeds w (Invocation cmd dir) = false ->
  exists e, subprocess_run cmd dir true w = ([Run (Invocation cmd dir)], Raised e).
Proof.
  unfold succeeds, subprocess_run. destruct (spawn w _) as [rc|]; [|by eauto].
  intros ->. simpl. eauto.
Qed.

(** Marker, then invocation, for every target reached. *)
Lemma for_targets_trace (w : world) (marker : string -> string) (cmd : list string)
    (dir : string -> path) (targets : list string) :
  fst (for_ targets (fun t =>
         print (marker t) ;; subprocess_run cmd (Some (dir t)) true) w)
  = flat_map (fun t => [Stdout (marker t); Run (Invocation cmd (Some (dir t)))])
      (reached w (fun t => Invocation cmd (Some (dir t))) targets).
Proof.
  induction targets as [|t ts IH]; simpl; [done|].
  unfold bind at 1. unfold bind at 1. unfold print at 1.
  destruct (succeeds w (Invocation cmd (Some (dir t)))) eqn:Hs.
  - rewrite (run_succeeds _ _ _ Hs). simpl.
    destruct (for_ ts _ w) as [tr r] eqn:E. simpl in *. by rewrite IH.
  - destruct (run_fails _ _ _ Hs) as [e ->]. reflexivity.
Qed.

Lemma reached_all (w : world) (inv : string -> invocation) (targets : list string) :
  (forall t, In t targets -> succeeds w (inv t) = true) ->
  reached w inv targets = targets.
Proof.
  induction targets as [|t ts IH]; simpl; [done|].
  intros H. rewrite (H t) by auto. rewrite IH; auto.
Qed.

(** ** Entries of [runtimes/] *)

Lemma resolve_app (n : node) (p q : path) :
  resolve n (p ++ q) = resolve n p ≫= (fun n' => resolve n' q).
Proof.
  revert n. induction p as [|c p IH]; intros n; simpl; [done|].
  destruct n as [|entries]; [done|].
  destruct (entries !! c); [apply IH|done].
Qed.

Lemma is_runtime_spec (w : world) (entries : gmap string node) (name : string) :
  resolve (root w) (runtimes_dir w) = Some (Dir entries) ->
  is_runtime w name = true <->
  exists sub, entries !! name = Some (Dir sub) /\ is_Some (sub !! "Cargo.toml").
Proof.
  intros Hd. unfold is_runtime, is_dir, path_exists, os_path_join.
  rewrite !resolve_app, Hd. simpl.
  destruct (entries !! name) as [[|sub]|]; simpl.
  - split; [done|]. by intros (sub & ? & _).
  - destruct (sub !! "Cargo.toml") as [n|] eqn:E; simpl.
    + split; [|done]. intros _. exists sub. by rewrite E.
    + split; [done|]. intros (sub' & [= <-] & [n Hn]). congruence.
  - split; [done|]. by intros (sub & ? & _).
Qed.

Lemma listed_iff (entries : gmap string node) (name : string) :
  In name (map fst (map_to_list entries)) <-> is_Some (entries !! name).
Proof.
  rewrite <- list_elem_of_In. change (map fst) with (fmap (M:=list) (@fst string node)).
  rewrite list_elem_of_fmap. split.
  - intros ([k n] & -> & H). apply elem_of_map_to_list in H. by exists n.
  - intros [n H]. exists (name, n). split; [done|]. by apply elem_of_map_to_list.
Qed.

Lemma discovered_NoDup (w : world) (entries : gmap string node) :
  NoDup (List.filter (is_runtime w) (sorted (map fst (map_to_list entries)))).
Proof.
  apply NoDup_ListNoDup, List.NoDup_filter, NoDup_ListNoDup.
  rewrite sorted_Permutation. apply (NoDup_fst_map_to_list entries).
Qed.

(** The loop header alone: when [runtimes/] is a directory, [discover]
    returns exactly the entries that are directories holding [Cargo.toml]
    (no plain file, no directory without the manifest), each once, in
    lexicographic order; a second run returns the same list, and the order
    in which the directory was listed does not matter. *)
Lemma discovery_exact_sorted_stable (w : world) (entries : gmap string node) :
  resolve (root w) (runtimes_dir w) = Some (Dir entries) ->
  exists targets,
    discover w = ([], Returned targets)
    /\ (forall name, In name targets <->
          exists sub, entries !! name = Some (Dir sub)
                      /\ is_Some (sub !! "Cargo.toml"))
    /\ StronglySorted str_le targets
    /\ NoDup targets
    /\ (a <- discover ;; b <- discover ;; ret (a, b)) w
       = ([], Returned (targets, targets))
    /\ (forall listing, listing ≡ₚ map fst (map_to_list entries) ->
          List.filter (is_runtime w) (sorted listing) = targets).
Proof.
  intros Hd. eexists. split; [exact (discover_listed w entries Hd)|].
  repeat split.
  - intros H. apply List.filter_In in H as [_ H]. by apply (is_runtime_spec w entries).
  - intros H. apply List.filter_In. split; [|by apply (is_runtime_spec w entries)].
    apply list_elem_of_In. rewrite sorted_Permutation. apply list_elem_of_In, listed_iff.
    destruct H as (sub & -> & _). by eexists.
  - apply StronglySorted_filter, sorted_StronglySorted.
  - apply discovered_NoDup.
  - unfold bind. by rewrite (discover_listed w entries Hd).
  - intros listing Hp. by rewrite (sorted_order_irrelevant _ _ Hp).
Qed.

(** The scenario of the specification: [alpha/] and [gamma/] hold a
    manifest, [beta/] does not. *)
Example discover_sample : discover sample_world = ([], Returned ["alpha"; "gamma"]).
Proof. vm_compute. reflexivity. Qed.

(** [build_runtimes] called directly walks the discovered targets in order; for each
    one reached it first prints the marker naming it, then runs
    [cargo build --target wasm32-wasip1] in the target's own directory,
    with [--release] appended exactly when the flag is set.  When every
    build succeeds, every discovered target is reached. *)
Lemma build_runtimes_per_target (release : bool) (w : world) (targets : list string) :
  discover w = ([], Returned targets) ->
  trace_of (task_build.build_runtimes release) w
  = FloxEnter "." ::
      flat_map (fun t => [Stdout (nl +:+ "--- Building runtime: " +:+ t +:+ " ---");
                          Run (Invocation
                                 (["cargo"; "build"; "--target"; "wasm32-wasip1"]
                                    ++ (if release then ["--release"] else []))
                                 (Some (runtimes_dir w ++ [t])))])
        (reached w (build_invocation w release) targets)
    ++ [FloxExit "."]
  /\ ((forall t, In t targets -> succeeds w (build_invocation w release t) = true) ->
      reached w (build_invocation w release) targets = targets).
Proof.
  intros Hdisc. split; [|apply reached_all].
  unfold trace_of. rewrite build_runtimes_walk, with_Flox_run. simpl fst.
  rewrite (walk_listed w _ targets Hdisc).
  by rewrite (for_targets_trace w build_marker _ (fun t => os_path_join (runtimes_dir w) t)).
Qed.

(** X1: [test runtimes] walks the discovered targets in order inside one
    guard; for each target reached it prints the marker naming it, then
    runs [cargo test] in the directory of the target, and it stops after
    the first target whose tests fail. *)
Lemma test_runtimes_per_target (w : world) (targets : list string) :
  discover w = ([], Returned targets) ->
  trace_of task_test.test_runtimes w
  = FloxEnter "." ::
      flat_map (fun t => [Stdout (test_marker t); Run (test_invocation w t)])
        (reached w (test_invocation w) targets)
    ++ [FloxExit "."].
Proof.
  intros Hdisc. unfold trace_of, task_test.test_runtimes.
  rewrite run_runtimes_walk, with_Flox_run. simpl fst.
  rewrite (walk_listed w _ targets Hdisc).
  by rewrite (for_targets_trace w test_marker _ (fun t => os_path_join (runtimes_dir w) t)).
Qed.

(** Called directly: when [runtimes/] is a directory without any entry that is a
    directory holding [Cargo.toml] (the empty directory included),
    [build runtimes] and [test runtimes] start no process and end with
    exit status 0. *)
Lemma no_runtime_no_process (release : bool) (w : world) (entries : gmap string node) :
  resolve (root w) (runtimes_dir w) = Some (Dir entries) ->
  (forall name sub, entries !! name = Some (Dir sub) -> sub !! "Cargo.toml" = None) ->
  (runs (trace_of (task_build.build_runtimes release) w) = []
   /\ exit_status (result_of (task_build.build_runtimes release) w) = 0%Z)
  /\ (runs (trace_of task_test.test_runtimes w) = []
      /\ exit_status (result_of task_test.test_runtimes w) = 0%Z).
Proof.
  intros Hd Hnone.
  assert (Hdisc : discover w = ([], Returned [])).
  { rewrite (discover_listed w entries Hd). do 2 f_equal.
    induction (sorted _) as [|x xs IH]; simpl; [done|].
    destruct (is_runtime w x) eqn:E; [|exact IH].
    apply (is_runtime_spec w entries x Hd) in E as (sub & Hsub & [n Hn]).
    rewrite (Hnone _ _ Hsub) in Hn. discriminate. }
  unfold trace_of, result_of, task_test.test_runtimes.
  rewrite build_runtimes_walk, run_runtimes_walk, !with_Flox_run.
  rewrite !(walk_listed w _ [] Hdisc). by simpl.
Qed.

(** ** The docs commands *)

Lemma docs_build_run (w : world) :
  task_docs.docs_build w
  = if path_exists w (docs_marker w) then
      with_Flox "." (
        subprocess_run ["mdbook"; "build"] (Some (docs_dir w)) true ;;
        print (nl +:+ "Documentation built to "
                  +:+ path_str (os_path_join (docs_dir w) "book"))) w
    else ([Stdout "Error: docs/book.toml not found"], Returned tt).
Proof.
  unfold task_docs.docs_build, bind at 1, os_getcwd. simpl.
  unfold bind at 1, os_path_exists. simpl. fold (docs_dir w). fold (docs_marker w).
  destruct (path_exists w (docs_marker w)); simpl; [|done].
  by destruct (with_Flox _ _ w).
Qed.

Lemma docs_serve_run (port : option string) (w : world) :
  task_docs.docs_serve port w
  = if path_exists w (docs_marker w) then
      with_Flox "." (
        subprocess_run ["mdbook"; "serve"; "--port"; default "3000" port; "--open"]
                       (Some (docs_dir w)) true) w
    else ([Stdout "Error: docs/book.toml not found"], Returned tt).
Proof.
  unfold task_docs.docs_serve, bind at 1, os_getcwd. simpl.
  unfold bind at 1, os_path_exists. simpl. fold (docs_dir w). fold (docs_marker w).
  by destruct (path_exists w (docs_marker w)).
Qed.

(** C2 (as the code has it): when [docs/book.toml] is absent, [docs build]
    starts no process and prints the error message; it then returns
    normally, so the exit status is 0. *)
Theorem docs_build_without_config (w : world) :
  path_exists w (docs_marker w) = false ->
  trace_of task_docs.docs_build w = [Stdout "Error: docs/book.toml not found"]
  /\ runs (trace_of task_docs.docs_build w) = []
  /\ result_of task_docs.docs_build w = Returned tt
  /\ exit_status (result_of task_docs.docs_build w) = 0%Z.
Proof.
  intros H. unfold trace_of, result_of. rewrite docs_build_run, H. by simpl.
Qed.

Lemma docs_build_without_config_witness :
  path_exists bare_world (docs_marker bare_world) = false
  /\ trace_of task_docs.docs_build bare_world = [Stdout "Error: docs/book.toml not found"]
  /\ runs (trace_of task_docs.docs_build bare_world) = []
  /\ result_of task_docs.docs_build bare_world = Returned tt
  /\ exit_status (result_of task_docs.docs_build bare_world) = 0%Z.
Proof.
  split; [reflexivity|].
  apply (docs_build_without_config bare_world). reflexivity.
Defined.

(** C2 as stated fails: without [docs/book.toml] the exit status of
    [docs build] is not non-zero. *)
Lemma docs_build_exit_status_not_nonzero :
  path_exists bare_world (docs_marker bare_world) = false
  /\ ~ (exit_status (result_of (action DocsBuild) bare_world) <> 0%Z).
Proof. split; [reflexivity|]. intros H. apply H. reflexivity. Qed.

(** Called directly with [docs/book.toml] present, [docs_serve] makes exactly one
    invocation, [mdbook serve --port PORT --open] in [docs/], where PORT is
    the value passed for the flag and ["3000"] when none is passed. *)
Lemma docs_serve_port (port : option string) (w : world) :
  path_exists w (docs_marker w) = true ->
  runs (trace_of (task_docs.docs_serve port) w)
  = [Invocation ["mdbook"; "serve"; "--port";
                 match port with Some p => p | None => "3000" end;
                 "--open"]
                (Some (docs_dir w))].
Proof.
  intros H. unfold trace_of. rewrite docs_serve_run, H, with_Flox_run.
  by destruct port.
Qed.

(** ** check all *)

Ltac case_spawn w :=
  repeat match goal with
         | |- context [spawn w ?i] => destruct (spawn w i) as [[|?|?]|]; simpl
         end.

(** C5: [check all] runs format, then lint, then the workspace check, in
    that order, each stage only after the one before it succeeded; when
    format fails, neither lint nor the workspace check is run. *)
Theorem check_all_sequence (check_only : bool) (w : world) :
  let fmt :=
    Invocation (if check_only then ["cargo"; "fmt"; "--all"; "--"; "--check"]
                else ["cargo"; "fmt"; "--all"]) None in
  let lint :=
    Invocation (if check_only
                then ["cargo"; "clippy"; "--workspace"; "--"; "-D"; "warnings"]
                else ["cargo"; "clippy"; "--workspace"; "--fix"; "--allow-dirty";
                      "--"; "-D"; "warnings"]) None in
  let chk := Invocation ["cargo"; "check"; "--workspace"] None in
  trace_of (task_check.check_all check_only) w
  = [FloxEnter "."]
      ++ map Run (if succeeds w fmt
                  then if succeeds w lint then [fmt; lint; chk] else [fmt; lint]
                  else [fmt])
      ++ [FloxExit "."].
Proof.
  destruct check_only; simpl;
    unfold trace_of, task_check.check_all, with_Flox, bind, task_check._run_fmt,
      task_check._run_clippy, subprocess_run, succeeds; simpl;
    case_spawn w; reflexivity.
Qed.

(** Called directly, the [check_only] parameter alone decides between the two argument
    vectors of format and of lint.  Set, format gets [-- --check] added and
    lint loses [--fix --allow-dirty]; every other argument is the same in
    both modes.  [check all] builds both vectors through the same helpers
    as [check fmt] and [check clippy]. *)
Lemma check_only_flips_arguments (check_only : bool) (w : world) :
  let fmt_argv :=
    ["cargo"; "fmt"; "--all"] ++ (if check_only then ["--"; "--check"] else []) in
  let lint_argv :=
    ["cargo"; "clippy"; "--workspace"]
      ++ (if check_only then [] else ["--fix"; "--allow-dirty"])
      ++ ["--"; "-D"; "warnings"] in
  runs (trace_of (task_check.check_fmt check_only) w) = [Invocation fmt_argv None]
  /\ runs (trace_of (task_check.check_clippy check_only) w) = [Invocation lint_argv None]
  /\ exists rest,
       runs (trace_of (task_check.check_all check_only) w)
       = Invocation fmt_argv None :: rest
       /\ (succeeds w (Invocation fmt_argv None) = true ->
           exists rest', rest = Invocation lint_argv None :: rest').
Proof.
  destruct check_only; simpl; (split; [|split]);
    unfold trace_of, task_check.check_fmt, task_check.check_clippy,
      task_check.check_all, with_Flox, bind, task_check._run_fmt,
      task_check._run_clippy, subprocess_run, succeeds; simpl;
    case_spawn w; try reflexivity;
    eexists; (split; [reflexivity|]); intros; try discriminate; eauto.
Qed.

(** ** Every command: fail-fast, source of a raise, use of the guard *)

Lemma is_dir_inv (w : world) (p : path) :
  is_dir w p = true -> exists entries, resolve (root w) p = Some (Dir entries).
Proof.
  unfold is_dir. destruct (resolve (root w) p) as [[|entries]|]; try discriminate.
  by exists entries.
Qed.

Lemma walk_cases (w : world) (work : path -> string -> M unit) :
  (is_dir w (runtimes_dir w) = false
   /\ walk_runtimes work w = ([], Raised (listing_error w (runtimes_dir w))))
  \/ (is_dir w (runtimes_dir w) = true
      /\ exists targets,
           walk_runtimes work w
           = for_ targets (fun entry => work (os_path_join (runtimes_dir w) entry) entry) w).
Proof.
  destruct (is_dir w (runtimes_dir w)) eqn:Hd.
  - right. split; [done|]. destruct (is_dir_inv _ _ Hd) as [entries He].
    eexists. apply walk_listed. exact (discover_listed w entries He).
  - left. split; [done|]. by apply walk_unlisted.
Qed.

Lemma fail_fast_walk (w : world) (work : path -> string -> M unit) :
  (forall p entry, fail_fast w (work p entry w)) -> fail_fast w (walk_runtimes work w).
Proof.
  intros Hw. destruct (walk_cases w work) as [[_ ->]|[_ [targets ->]]].
  - by apply fail_fast_quiet.
  - apply fail_fast_for. auto.
Qed.

Lemma raises_by_run_walk (w : world) (work : path -> string -> M unit) :
  is_dir w (runtimes_dir w) = true ->
  (forall p entry, raises_by_run w (work p entry w)) ->
  raises_by_run w (walk_runtimes work w).
Proof.
  intros Hd Hw. destruct (walk_cases w work) as [[Hd' _]|[_ [targets ->]]].
  - congruence.
  - apply raises_by_run_for. auto.
Qed.

Lemma guard_free_walk (work : path -> string -> M unit) :
  (forall p entry, guard_free (work p entry)) -> guard_free (walk_runtimes work).
Proof.
  intros Hw w. destruct (walk_cases w work) as [[_ ->]|[_ [targets ->]]]; [done|].
  apply guard_free_for. auto.
Qed.

Ltac enter :=
  repeat match goal with
         | |- forall _, _ => intro
         end.

Ltac fail_fast_steps :=
  repeat first
    [ apply fail_fast_with_Flox
    | apply fail_fast_walk; enter
    | apply fail_fast_bind; enter
    | apply fail_fast_run
    | by apply fail_fast_quiet ].

Lemma action_fail_fast (c : command) (w : world) : fail_fast w (action c w).
Proof.
  destruct c as [r|r|k| |k|k| | | | | |p]; simpl;
    try rewrite build_runtimes_walk;
    try rewrite docs_build_run; try rewrite docs_serve_run;
    unfold task_build.build_workspace, task_check.check_all, task_check.check_workspace,
      task_check.check_fmt, task_check.check_clippy, task_check._run_fmt,
      task_check._run_clippy, task_test.test_all, task_test.test_unit,
      task_test.test_runtimes, task_test.test_integration, task_test._run_unit;
    try rewrite run_runtimes_walk;
    try destruct k; simpl;
    try destruct (path_exists w (docs_marker w));
    fail_fast_steps.
Qed.

Ltac raises_by_run_steps :=
  repeat first
    [ apply raises_by_run_with_Flox
    | apply raises_by_run_walk; [by auto|enter]
    | apply raises_by_run_bind; enter
    | apply raises_by_run_run
    | by apply (raises_by_run_returned _ _ tt) ].

Lemma action_raises_by_run (c : command) (w : world) :
  (needs_discovery c = true -> is_dir w (runtimes_dir w) = true) ->
  raises_by_run w (action c w).
Proof.
  intros Hlist.
  destruct c as [r|r|k| |k|k| | | | | |p]; simpl in *;
    try rewrite build_runtimes_walk;
    try rewrite docs_build_run; try rewrite docs_serve_run;
    unfold task_build.build_workspace, task_check.check_all, task_check.check_workspace,
      task_check.check_fmt, task_check.check_clippy, task_check._run_fmt,
      task_check._run_clippy, task_test.test_all, task_test.test_unit,
      task_test.test_runtimes, task_test.test_integration, task_test._run_unit;
    try rewrite run_runtimes_walk;
    try destruct k; simpl;
    try destruct (path_exists w (docs_marker w));
    raises_by_run_steps.
Qed.

Ltac guard_free_steps :=
  repeat first
    [ apply guard_free_walk; enter
    | apply guard_free_bind; enter
    | apply guard_free_run
    | done ].

(** The functions called directly: for every call, if every invocation it
    makes succeeds and, for a command that lists [runtimes/], that
    directory can be listed, the exit status is 0; if an invocation fails,
    the exit status is non-zero and no invocation follows the failing one,
    in hand-written sequences and in the loop over targets alike. *)
Lemma short_circuit (c : command) (w : world) :
  ((needs_discovery c = true -> is_dir w (runtimes_dir w) = true) ->
   all_succeed w c ->
   exit_status (result_of (action c) w) = 0%Z)
  /\ (forall pre i post,
        runs (trace_of (action c) w) = pre ++ i :: post ->
        succeeds w i = false ->
        exit_status (result_of (action c) w) <> 0%Z /\ post = []).
Proof.
  split.
  - intros Hlist Hall. pose proof (action_raises_by_run c w Hlist) as Hr.
    unfold result_of. destruct (snd (action c w)) as [[]|e] eqn:E; [done|].
    destruct (Hr e E) as (i & Hin & Hi). rewrite (Hall i Hin) in Hi. discriminate.
  - intros pre i post Hruns Hi.
    destruct (action_fail_fast c w pre i post Hruns Hi) as [-> [e He]].
    unfold result_of. by rewrite He.
Qed.

(** C1 as stated fails: in [test all] the unit tests, the only invocation
    made, succeed, and the command still ends with a non-zero status
    because [runtimes/] is missing. *)
Lemma all_succeed_yet_nonzero : ~ exit_zero_when_all_succeed TestAll bare_world.
Proof.
  intros H. assert (Hall : all_succeed bare_world TestAll) by (intros i _; reflexivity).
  specialize (H Hall). vm_compute in H. discriminate.
Qed.

(** C3 (as the code has it): a command releases the guard exactly once on
    every path that enters it, whether the body returns, an invocation
    fails or listing [runtimes/] raises; [docs build] and [docs serve]
    without [docs/book.toml] return before the guard is entered, and then
    no release is observed. *)
Theorem guard_released_once_if_entered (c : command) (w : world) :
  releases (trace_of (action c) w) = if precondition_fails c w then 0%nat else 1%nat.
Proof.
  unfold trace_of.
  destruct c as [r|r|k| |k|k| | | | | |p]; unfold action, precondition_fails;
    try rewrite build_runtimes_walk;
    try rewrite docs_build_run; try rewrite docs_serve_run;
    unfold task_build.build_workspace, task_check.check_all, task_check.check_workspace,
      task_check.check_fmt, task_check.check_clippy, task_check._run_fmt,
      task_check._run_clippy, task_test.test_all, task_test.test_unit,
      task_test.test_runtimes, task_test.test_integration, task_test._run_unit;
    try rewrite run_runtimes_walk;
    try destruct k; cbv zeta; cbn [negb];
    try (destruct (path_exists w (docs_marker w)); cbn [negb]; [|done]);
    apply releases_with_Flox; guard_free_steps.
Qed.

(** C3 as stated fails: [docs build] without [docs/book.toml] shows no
    release of the guard. *)
Lemma docs_build_never_releases :
  precondition_fails DocsBuild bare_world = true
  /\ releases (trace_of (action DocsBuild) bare_world) <> 1%nat.
Proof. split; [reflexivity|]. vm_compute. discriminate. Qed.

(** The functions called directly: when [runtimes/] is missing or not a
    directory, a command that needs discovery ends with a non-zero status
    and makes no per-target invocation, only the invocations of its
    workspace stage ([test all] runs the unit tests first).  When that
    stage succeeds, the command fails with the error raised by listing the
    directory; the missing directory is never taken for an empty list. *)
Lemma missing_runtimes_dir (c : command) (w : world) :
  needs_discovery c = true ->
  is_dir w (runtimes_dir w) = false ->
  exit_status (result_of (action c) w) <> 0%Z
  /\ runs (trace_of (action c) w) = workspace_stage c
  /\ ((forall i, In i (workspace_stage c) -> succeeds w i = true) ->
      result_of (action c) w = Raised (listing_error w (runtimes_dir w))
      /\ is_discovery_error (listing_error w (runtimes_dir w)) = true).
Proof.
  intros Hc Hd.
  assert (Herr : is_discovery_error (listing_error w (runtimes_dir w)) = true).
  { unfold listing_error. by destruct (path_exists w _). }
  unfold trace_of, result_of.
  destruct c; try discriminate; simpl.
  - rewrite build_runtimes_walk, with_Flox_run, (walk_unlisted w _ Hd). by simpl.
  - unfold task_test.test_all. rewrite with_Flox_run, run_runtimes_walk.
    unfold task_test._run_unit.
    destruct (succeeds w unit_invocation) eqn:Hs.
    + rewrite (bind_returned _ _ w _ tt (run_succeeds w _ _ Hs)).
      rewrite (walk_unlisted w _ Hd). by simpl.
    + destruct (run_fails w _ _ Hs) as [e He].
      rewrite (bind_raised _ _ w _ e He). simpl.
      split; [done|]. split; [done|]. intros H. rewrite (H unit_invocation) in Hs by (by left). discriminate.
  - unfold task_test.test_runtimes.
    rewrite with_Flox_run, run_runtimes_walk, (walk_unlisted w _ Hd). by simpl.
Qed.

(** C7 as stated fails: [test all] with failing unit tests and no
    [runtimes/] fails with [CalledProcessError], not with a discovery
    error. *)
Lemma test_all_fails_before_discovery :
  needs_discovery TestAll = true
  /\ is_dir failing_bare_world (runtimes_dir failing_bare_world) = false
  /\ ~ fails_with_discovery_error TestAll failing_bare_world.
Proof.
  split; [reflexivity|]. split; [reflexivity|].
  intros (e & He & Hd). vm_compute in He. injection He as <-. discriminate.
Qed.

(** ** No command repeats an invocation *)

Lemma runs_flat_map_targets (marker : string -> string) (inv : string -> invocation)
    (targets : list string) :
  runs (flat_map (fun t => [Stdout (marker t); Run (inv t)]) targets) = map inv targets.
Proof. induction targets as [|t ts IH]; simpl; by rewrite ?IH. Qed.

Lemma reached_prefix (w : world) (inv : string -> invocation) (targets : list string) :
  exists rest, targets = reached w inv targets ++ rest.
Proof.
  induction targets as [|t ts [rest IH]]; simpl; [by exists []|].
  destruct (succeeds w (inv t)).
  - exists rest. by rewrite <- IH.
  - by exists ts.
Qed.

Lemma runs_walk (w : world) (marker : string -> string) (cmd : list string) :
  exists targets,
    NoDup targets
    /\ runs (fst (walk_runtimes (fun p entry =>
                    print (marker entry) ;; subprocess_run cmd (Some p) true) w))
       = map (fun t => Invocation cmd (Some (os_path_join (runtimes_dir w) t))) targets.
Proof.
  destruct (is_dir w (runtimes_dir w)) eqn:Hd.
  - destruct (is_dir_inv _ _ Hd) as [entries He].
    pose proof (discover_listed w entries He) as Hdisc.
    rewrite (walk_listed w _ _ Hdisc).
    rewrite (for_targets_trace w marker cmd (os_path_join (runtimes_dir w))).
    rewrite runs_flat_map_targets. eexists. split; [|reflexivity].
    destruct (reached_prefix w
                (fun t => Invocation cmd (Some (os_path_join (runtimes_dir w) t)))
                (List.filter (is_runtime w) (sorted (map fst (map_to_list entries)))))
      as [rest Hrest].
    pose proof (discovered_NoDup w entries) as Hnd.
    rewrite Hrest in Hnd. by apply NoDup_app in Hnd as [? _].
  - exists []. split; [constructor|]. by rewrite (walk_unlisted w _ Hd).
Qed.

Lemma per_target_distinct (w : world) (cmd : list string) (targets : list string) :
  NoDup targets ->
  NoDup (map (fun t => Invocation cmd (Some (os_path_join (runtimes_dir w) t))) targets).
Proof.
  intros Hnd.
  assert (Hinj : Inj (=) (=)
            (fun t => Invocation cmd (Some (os_path_join (runtimes_dir w) t)))).
  { intros a b [= H]. unfold os_path_join in H. by apply app_inv_head in H as [= ->]. }
  by apply (NoDup_fmap_2 _).
Qed.

Lemma runs_with_Flox {A} (env : string) (body : M A) (w : world) :
  runs (fst (with_Flox env body w)) = runs (fst (body w)).
Proof. rewrite with_Flox_run. simpl. by rewrite runs_app, app_nil_r. Qed.

(** X14: no command makes the same invocation twice: the invocations of
    one run differ pairwise in argument vector or working directory (the
    per-target ones in their working directory). *)
Lemma invocations_distinct (c : command) (w : world) :
  NoDup (runs (trace_of (action c) w)).
Proof.
  unfold trace_of.
  destruct c as [r|r|k| |k|k| | | | | |p]; unfold action;
    try rewrite build_runtimes_walk;
    try rewrite docs_build_run; try rewrite docs_serve_run;
    try (unfold task_test.test_runtimes; rewrite run_runtimes_walk);
    try (unfold task_test.test_all; rewrite run_runtimes_walk);
    unfold task_build.build_workspace, task_check.check_all, task_check.check_workspace,
      task_check.check_fmt, task_check.check_clippy, task_test.test_unit,
      task_test.test_integration;
    try (destruct (path_exists w (docs_marker w)); [|by apply NoDup_nil_2]);
    cbv zeta; rewrite runs_with_Flox.
  - apply NoDup_singleton.
  - destruct (runs_walk w build_marker
                (["cargo"; "build"; "--target"; "wasm32-wasip1"]
                   ++ (if r then ["--release"] else []))) as (ts & Hnd & ->).
    by apply per_target_distinct.
  - destruct k; unfold bind, task_check._run_fmt, task_check._run_clippy, subprocess_run;
      simpl; case_spawn w; by apply (bool_decide_unpack _).
  - apply NoDup_singleton.
  - destruct k; apply NoDup_singleton.
  - apply NoDup_singleton.
  - unfold task_test._run_unit.
    destruct (succeeds w unit_invocation) eqn:Hs.
    + rewrite (bind_returned _ _ w _ tt (run_succeeds w _ _ Hs)). cbn [fst].
      rewrite runs_app.
      destruct (runs_walk w test_marker ["cargo"; "test"]) as (ts & Hnd & ->).
      simpl. apply NoDup_cons. split; [|by apply per_target_distinct].
      intros H. apply list_elem_of_fmap in H as (t & Ht & _). discriminate.
    + destruct (run_fails w _ _ Hs) as [e He].
      rewrite (bind_raised _ _ w _ e He). apply NoDup_singleton.
  - apply NoDup_singleton.
  - destruct (runs_walk w test_marker ["cargo"; "test"]) as (ts & Hnd & ->).
    by apply per_target_distinct.
  - apply NoDup_singleton.
  - unfold bind, subprocess_run, print. simpl. case_spawn w; apply NoDup_singleton.
  - apply NoDup_singleton.
Qed.

(** ** Scenarios of the specification *)

(** [build_runtimes] called directly: [alpha] builds, [gamma] fails; both
    are invoked, [omega], which comes after [gamma], is not, and the call
    raises. *)
Example build_stops_at_gamma :
  runs (trace_of (action (BuildRuntimes false)) gamma_world)
  = [build_invocation gamma_world false "alpha";
     build_invocation gamma_world false "gamma"]
  /\ exit_status (result_of (action (BuildRuntimes false)) gamma_world) = 1%Z.
Proof. vm_compute. done. Qed.

(** [check_all(check_only=True)] called directly with a failing formatter
    runs the format check and nothing else. *)
Example check_all_stops_at_fmt :
  runs (trace_of (action (CheckAll true)) failing_bare_world)
  = [Invocation ["cargo"; "fmt"; "--all"; "--"; "--check"] None].
Proof. vm_compute. done. Qed.

(** * Further properties *)

Lemma test_runtimes_per_target_witness :
  discover gamma_world = ([], Returned ["alpha"; "gamma"; "omega"])
  /\ trace_of task_test.test_runtimes gamma_world
     = FloxEnter "." ::
         flat_map (fun t => [Stdout (test_marker t); Run (test_invocation gamma_world t)])
           (reached gamma_world (test_invocation gamma_world) ["alpha"; "gamma"; "omega"])
       ++ [FloxExit "."].
Proof.
  split; [vm_compute; reflexivity|].
  apply (test_runtimes_per_target gamma_world ["alpha"; "gamma"; "omega"]).
  vm_compute; reflexivity.
Defined.

(** ** What a failing tool raises *)

Lemma run_fails_with (w : world) (cmd : list string) (dir : option path) :
  succeeds w (Invocation cmd dir) = false ->
  subprocess_run cmd dir true w
  = ([Run (Invocation cmd dir)], Raised (tool_error w (Invocation cmd dir))).
Proof.
  unfold succeeds, subprocess_run, tool_error.
  destruct (spawn w _) as [rc|]; [|done]. by intros ->.
Qed.

Lemma for_targets_result (w : world) (marker : string -> string) (cmd : list string)
    (dir : string -> path) (targets : list string) :
  snd (for_ targets (fun t =>
         print (marker t) ;; subprocess_run cmd (Some (dir t)) true) w)
  = match first_failure w (fun t => Invocation cmd (Some (dir t))) targets with
    | Some t => Raised (tool_error w (Invocation cmd (Some (dir t))))
    | None => Returned tt
    end.
Proof.
  unfold first_failure.
  induction targets as [|t ts IH]; simpl; [done|].
  unfold bind at 1. unfold bind at 1. unfold print at 1.
  destruct (succeeds w (Invocation cmd (Some (dir t)))) eqn:Hs.
  - rewrite (run_succeeds _ _ _ Hs). simpl.
    destruct (for_ ts _ w) as [tr r] eqn:E. simpl in *. by rewrite IH.
  - by rewrite (run_fails_with _ _ _ Hs).
Qed.

Lemma first_failure_none (w : world) (inv : string -> invocation) (targets : list string) :
  first_failure w inv targets = None <->
  forall t, In t targets -> succeeds w (inv t) = true.
Proof.
  unfold first_failure. split.
  - intros H t Ht. pose proof (List.find_none _ _ H t Ht) as Hf.
    by apply negb_false_iff in Hf.
  - intros H. induction targets as [|t ts IH]; simpl; [done|].
    rewrite (H t) by (by left). simpl. apply IH. intros t' Ht'. apply H. by right.
Qed.

(** Called directly with [runtimes/] listed, [build_runtimes] and [test_runtimes]
    return when no target fails, and otherwise raise the error of the
    first target, in sorted order, whose invocation fails:
    [CalledProcessError] with that invocation's return code and argument
    vector. *)
Lemma runtime_commands_result (release : bool) (w : world) (targets : list string) :
  discover w = ([], Returned targets) ->
  result_of (task_build.build_runtimes release) w
  = match first_failure w (build_invocation w release) targets with
    | Some t => Raised (tool_error w (build_invocation w release t))
    | None => Returned tt
    end
  /\ result_of task_test.test_runtimes w
     = match first_failure w (test_invocation w) targets with
       | Some t => Raised (tool_error w (test_invocation w t))
       | None => Returned tt
       end.
Proof.
  intros Hdisc. unfold result_of, task_test.test_runtimes.
  rewrite build_runtimes_walk, run_runtimes_walk, !with_Flox_run. cbn [snd].
  rewrite !(walk_listed w _ targets Hdisc). split.
  - exact (for_targets_result w build_marker _
             (fun t => os_path_join (runtimes_dir w) t) targets).
  - exact (for_targets_result w test_marker _
             (fun t => os_path_join (runtimes_dir w) t) targets).
Qed.

(** Called directly with [runtimes/] listed, [build_runtimes] and [test_runtimes] end
    with exit status 0 exactly when the invocation of every discovered
    target succeeds, and then every discovered target was processed, once
    each, in sorted order. *)
Lemma runtime_commands_exit_zero_iff (release : bool) (w : world)
    (targets : list string) :
  discover w = ([], Returned targets) ->
  (exit_status (result_of (task_build.build_runtimes release) w) = 0%Z <->
   forall t, In t targets -> succeeds w (build_invocation w release t) = true)
  /\ (exit_status (result_of (task_build.build_runtimes release) w) = 0%Z ->
      runs (trace_of (task_build.build_runtimes release) w)
      = map (build_invocation w release) targets)
  /\ (exit_status (result_of task_test.test_runtimes w) = 0%Z <->
      forall t, In t targets -> succeeds w (test_invocation w t) = true)
  /\ (exit_status (result_of task_test.test_runtimes w) = 0%Z ->
      runs (trace_of task_test.test_runtimes w) = map (test_invocation w) targets).
Proof.
  intros Hdisc.
  assert (Hb : exit_status (result_of (task_build.build_runtimes release) w) = 0%Z <->
               forall t, In t targets -> succeeds w (build_invocation w release t) = true).
  { rewrite <- first_failure_none. unfold result_of.
    rewrite build_runtimes_walk, with_Flox_run. cbn [snd].
    rewrite (walk_listed w _ targets Hdisc).
    rewrite (for_targets_result w build_marker _
               (fun t => os_path_join (runtimes_dir w) t) targets).
    fold (build_invocation w release).
    by destruct (first_failure w (build_invocation w release) targets). }
  assert (Ht : exit_status (result_of task_test.test_runtimes w) = 0%Z <->
               forall t, In t targets -> succeeds w (test_invocation w t) = true).
  { rewrite <- first_failure_none. unfold result_of, task_test.test_runtimes.
    rewrite run_runtimes_walk, with_Flox_run. cbn [snd].
    rewrite (walk_listed w _ targets Hdisc).
    rewrite (for_targets_result w test_marker _
               (fun t => os_path_join (runtimes_dir w) t) targets).
    fold (test_invocation w).
    by destruct (first_failure w (test_invocation w) targets). }
  split; [exact Hb|]. split; [|split; [exact Ht|]].
  - intros Hz. pose proof (proj1 Hb Hz) as Hall. unfold trace_of.
    rewrite build_runtimes_walk, runs_with_Flox, (walk_listed w _ targets Hdisc).
    rewrite (for_targets_trace w build_marker _ (fun t => os_path_join (runtimes_dir w) t)).
    rewrite runs_flat_map_targets. fold (build_invocation w release).
    by rewrite (reached_all w _ targets Hall).
  - intros Hz. pose proof (proj1 Ht Hz) as Hall. unfold trace_of, task_test.test_runtimes.
    rewrite run_runtimes_walk, runs_with_Flox, (walk_listed w _ targets Hdisc).
    rewrite (for_targets_trace w test_marker _ (fun t => os_path_join (runtimes_dir w) t)).
    rewrite runs_flat_map_targets. fold (test_invocation w).
    by rewrite (reached_all w _ targets Hall).
Qed.

(** ** test all and check all against their parts *)

(** X4: [test all] runs the unit tests and then, inside the same guard,
    exactly what [_run_runtimes] does; when the unit tests fail it raises
    their error and [runtimes/] is not even listed. *)
Theorem test_all_unit_then_runtimes (w : world) :
  trace_of task_test.test_all w
  = [FloxEnter "."; Run unit_invocation]
      ++ (if succeeds w unit_invocation then trace_of task_test._run_runtimes w else [])
      ++ [FloxExit "."]
  /\ result_of task_test.test_all w
     = if succeeds w unit_invocation then result_of task_test._run_runtimes w
       else Raised (tool_error w unit_invocation).
Proof.
  unfold trace_of, result_of, task_test.test_all, task_test._run_unit.
  rewrite with_Flox_run.
  destruct (succeeds w unit_invocation) eqn:Hs.
  - by rewrite (bind_returned _ _ w _ tt (run_succeeds w _ _ Hs)).
  - by rewrite (bind_raised _ _ w _ _ (run_fails_with w _ _ Hs)).
Qed.

(** X5: [test all] ends with exit status 0 exactly when [test unit] and
    [test runtimes] both do in the same world. *)
Theorem test_all_exit_zero_iff (w : world) :
  exit_status (result_of task_test.test_all w) = 0%Z <->
  exit_status (result_of task_test.test_unit w) = 0%Z
  /\ exit_status (result_of task_test.test_runtimes w) = 0%Z.
Proof.
  unfold result_of, task_test.test_all, task_test.test_unit, task_test.test_runtimes,
    task_test._run_unit.
  rewrite !with_Flox_run. cbn [snd].
  destruct (succeeds w unit_invocation) eqn:Hs.
  - rewrite (bind_returned _ _ w _ tt (run_succeeds w _ _ Hs)).
    rewrite (run_succeeds w _ _ Hs). simpl. tauto.
  - rewrite (bind_raised _ _ w _ _ (run_fails_with w _ _ Hs)).
    rewrite (run_fails_with w _ _ Hs). simpl. split; [done|]. by intros [? _].
Qed.

(** X6: [check all] ends with exit status 0 exactly when [check fmt],
    [check clippy] (both with the same [check_only]) and [check workspace]
    each do in the same world. *)
Theorem check_all_exit_zero_iff (check_only : bool) (w : world) :
  exit_status (result_of (task_check.check_all check_only) w) = 0%Z <->
  exit_status (result_of (task_check.check_fmt check_only) w) = 0%Z
  /\ exit_status (result_of (task_check.check_clippy check_only) w) = 0%Z
  /\ exit_status (result_of task_check.check_workspace w) = 0%Z.
Proof.
  destruct check_only;
    unfold result_of, task_check.check_all, task_check.check_fmt,
      task_check.check_clippy, task_check.check_workspace, with_Flox, bind,
      task_check._run_fmt, task_check._run_clippy, subprocess_run; simpl;
    case_spawn w; simpl; (split; [intros H|intros (H1 & H2 & H3)]);
    try discriminate; auto.
Qed.

(** ** Where an exception comes from *)

Section RaisedByLast.
Context (w : world).

Lemma raised_by_last_returned {A} (x : list event * outcome A) (a : A) :
  snd x = Returned a -> raised_by_last w x.
Proof. intros H e He. congruence. Qed.

Lemma raised_by_last_run (cmd : list string) (dir : option path) :
  raised_by_last w (subprocess_run cmd dir true w).
Proof.
  destruct (succeeds w (Invocation cmd dir)) eqn:Hs.
  - rewrite (run_succeeds w _ _ Hs). by apply (raised_by_last_returned _ tt).
  - rewrite (run_fails_with w _ _ Hs). intros e [= <-].
    exists (Invocation cmd dir). by split.
Qed.

Lemma raised_by_last_bind {A B} (m : M A) (k : A -> M B) :
  raised_by_last w (m w) -> (forall a, raised_by_last w (k a w)) ->
  raised_by_last w (bind m k w).
Proof.
  intros Hm Hk. destruct (m w) as [tr [a|e]] eqn:E.
  - rewrite (bind_returned _ _ _ _ _ E). intros e He; simpl in *.
    destruct (Hk a e He) as (i & Hlast & Hi & ->). exists i. split; [|done].
    rewrite runs_app. by apply last_app_Some; left.
  - rewrite (bind_raised _ _ _ _ _ E). intros e' [= <-].
    apply (Hm e). reflexivity.
Qed.

Lemma raised_by_last_for {A} (xs : list A) (body : A -> M unit) :
  (forall x, raised_by_last w (body x w)) -> raised_by_last w (for_ xs body w).
Proof.
  intros Hb. induction xs as [|x xs IH]; simpl.
  - by apply (raised_by_last_returned _ tt).
  - apply raised_by_last_bind; auto.
Qed.

Lemma raised_by_last_with_Flox {A} (env : string) (body : M A) :
  raised_by_last w (body w) -> raised_by_last w (with_Flox env body w).
Proof.
  intros Hb e He. rewrite with_Flox_run in He. simpl in He.
  rewrite runs_with_Flox. exact (Hb e He).
Qed.

Lemma raised_by_last_walk (work : path -> string -> M unit) :
  is_dir w (runtimes_dir w) = true ->
  (forall p entry, raised_by_last w (work p entry w)) ->
  raised_by_last w (walk_runtimes work w).
Proof.
  intros Hd Hw. destruct (walk_cases w work) as [[Hd' _]|[_ [targets ->]]].
  - congruence.
  - apply raised_by_last_for. auto.
Qed.
End RaisedByLast.

Ltac raised_by_last_steps :=
  repeat first
    [ apply raised_by_last_with_Flox
    | apply raised_by_last_walk; [by auto|enter]
    | apply raised_by_last_bind; enter
    | apply raised_by_last_run
    | by apply (raised_by_last_returned _ _ tt) ].

Lemma action_raised_by_last (c : command) (w : world) :
  (needs_discovery c = true -> is_dir w (runtimes_dir w) = true) ->
  raised_by_last w (action c w).
Proof.
  intros Hlist.
  destruct c as [r|r|k| |k|k| | | | | |p]; simpl in *;
    try rewrite build_runtimes_walk;
    try rewrite docs_build_run; try rewrite docs_serve_run;
    unfold task_build.build_workspace, task_check.check_all, task_check.check_workspace,
      task_check.check_fmt, task_check.check_clippy, task_check._run_fmt,
      task_check._run_clippy, task_test.test_all, task_test.test_unit,
      task_test.test_runtimes, task_test.test_integration, task_test._run_unit;
    try rewrite run_runtimes_walk;
    try destruct k; simpl;
    try destruct (path_exists w (docs_marker w));
    raised_by_last_steps.
Qed.

(** A function called directly raises in one of two ways only.  Either it needs
    discovery, [runtimes/] is not a directory, and the exception is the one
    [os.listdir] raises; or the last invocation it made failed, and the
    exception is that invocation's [CalledProcessError] (with its return
    code and argument vector) or launch error. *)
Lemma raised_error_origin (c : command) (w : world) (e : exn) :
  result_of (action c) w = Raised e ->
  (needs_discovery c = true
   /\ is_dir w (runtimes_dir w) = false
   /\ e = listing_error w (runtimes_dir w))
  \/ (exists i, last (runs (trace_of (action c) w)) = Some i
                /\ succeeds w i = false
                /\ e = tool_error w i).
Proof.
  intros He.
  destruct (needs_discovery c) eqn:Hc; [destruct (is_dir w (runtimes_dir w)) eqn:Hd|].
  - right. apply (action_raised_by_last c w); [done|exact He].
  - unfold result_of, trace_of in *.
    destruct c; try discriminate; simpl in *.
    + left. rewrite build_runtimes_walk, with_Flox_run, (walk_unlisted w _ Hd) in He.
      by injection He as <-.
    + unfold task_test.test_all, task_test._run_unit in *.
      rewrite with_Flox_run in He. rewrite runs_with_Flox. simpl in He.
      destruct (succeeds w unit_invocation) eqn:Hs.
      * left. rewrite (bind_returned _ _ w _ tt (run_succeeds w _ _ Hs)) in He.
        rewrite run_runtimes_walk, (walk_unlisted w _ Hd) in He.
        by injection He as <-.
      * right. rewrite (bind_raised _ _ w _ _ (run_fails_with w _ _ Hs)) in *.
        injection He as <-. by exists unit_invocation.
    + left. unfold task_test.test_runtimes in He.
      rewrite with_Flox_run, run_runtimes_walk, (walk_unlisted w _ Hd) in He.
      by injection He as <-.
  - right. apply (action_raised_by_last c w); [congruence|exact He].
Qed.

(** ** Everything happens inside the guard *)

Lemma guardless_bind {A B} (m : M A) (k : A -> M B) :
  guardless m -> (forall a, guardless (k a)) -> guardless (bind m k).
Proof.
  intros Hm Hk w. specialize (Hm w). destruct (m w) as [tr [a|e]] eqn:E.
  - rewrite (bind_returned _ _ _ _ _ E); simpl in *.
    apply Forall_app. split; [done|apply Hk].
  - by rewrite (bind_raised _ _ _ _ _ E).
Qed.

Lemma guardless_for {A} (xs : list A) (body : A -> M unit) :
  (forall x, guardless (body x)) -> guardless (for_ xs body).
Proof.
  intros Hb. induction xs as [|x xs IH]; simpl.
  - intros w. constructor.
  - apply guardless_bind; auto.
Qed.

Lemma guardless_run cmd dir check : guardless (subprocess_run cmd dir check).
Proof. intros w. by repeat constructor. Qed.

Lemma guardless_print text : guardless (print text).
Proof. intros w. by repeat constructor. Qed.

Lemma guardless_walk (work : path -> string -> M unit) :
  (forall p entry, guardless (work p entry)) -> guardless (walk_runtimes work).
Proof.
  intros Hw w. destruct (walk_cases w work) as [[_ ->]|[_ [targets ->]]].
  - constructor.
  - apply guardless_for. auto.
Qed.

Lemma with_Flox_brackets {A} (env : string) (body : M A) (w : world) :
  guardless body ->
  exists mid, fst (with_Flox env body w) = FloxEnter env :: mid ++ [FloxExit env]
              /\ Forall (fun e => is_guard_event e = false) mid.
Proof. intros Hb. rewrite with_Flox_run. eexists. split; [reflexivity|apply Hb]. Qed.

Ltac guardless_steps :=
  repeat first
    [ apply guardless_walk; enter
    | apply guardless_bind; enter
    | apply guardless_run
    | apply guardless_print ].

(** The functions called directly: the trace of a
    call is one guard entry, then events that are not guard events (all
    invocations and all progress output), then one guard exit; the only
    other trace is the single error line of a docs command whose
    [docs/book.toml] is missing. *)
Lemma invocations_inside_guard (c : command) (w : world) :
  if precondition_fails c w
  then trace_of (action c) w = [Stdout "Error: docs/book.toml not found"]
  else exists mid,
         trace_of (action c) w = FloxEnter "." :: mid ++ [FloxExit "."]
         /\ Forall (fun e => is_guard_event e = false) mid.
Proof.
  unfold trace_of.
  destruct c as [r|r|k| |k|k| | | | | |p]; unfold action, precondition_fails;
    try rewrite build_runtimes_walk;
    try rewrite docs_build_run; try rewrite docs_serve_run;
    unfold task_build.build_workspace, task_check.check_all, task_check.check_workspace,
      task_check.check_fmt, task_check.check_clippy, task_check._run_fmt,
      task_check._run_clippy, task_test.test_all, task_test.test_unit,
      task_test.test_runtimes, task_test.test_integration, task_test._run_unit;
    try rewrite run_runtimes_walk;
    try destruct k; cbv zeta; cbn [negb];
    try (destruct (path_exists w (docs_marker w)); cbn [negb]; [|done]);
    apply with_Flox_brackets; guardless_steps.
Qed.

(** ** Working directories *)

Lemma resolve_parent_is_dir (n : node) (p : path) (c : string) :
  is_Some (resolve n (p ++ [c])) -> exists entries, resolve n p = Some (Dir entries).
Proof.
  rewrite resolve_app. destruct (resolve n p) as [[|entries]|]; simpl.
  - by intros [? ?].
  - by exists entries.
  - by intros [? ?].
Qed.

Lemma docs_dir_is_dir (w : world) :
  path_exists w (docs_marker w) = true -> is_dir w (docs_dir w) = true.
Proof.
  unfold path_exists, is_dir, docs_marker, os_path_join. intros H.
  destruct (resolve_parent_is_dir (root w) (docs_dir w) "book.toml") as [entries ->];
    [|done].
  by destruct (resolve (root w) (docs_dir w ++ ["book.toml"])).
Qed.

Lemma workdir_ok_runs_bind {A B} (w : world) (m : M A) (k : A -> M B) :
  Forall (workdir_ok w) (runs (fst (m w))) ->
  (forall a, Forall (workdir_ok w) (runs (fst (k a w)))) ->
  Forall (workdir_ok w) (runs (fst (bind m k w))).
Proof.
  intros Hm Hk. destruct (m w) as [tr [a|e]] eqn:E.
  - rewrite (bind_returned _ _ _ _ _ E); simpl in *.
    rewrite runs_app. apply Forall_app. split; [done|apply Hk].
  - by rewrite (bind_raised _ _ _ _ _ E).
Qed.

Lemma workdir_ok_runs_for (w : world) (xs : list string) (body : string -> M unit) :
  (forall x, In x xs -> Forall (workdir_ok w) (runs (fst (body x w)))) ->
  Forall (workdir_ok w) (runs (fst (for_ xs body w))).
Proof.
  induction xs as [|x xs IH]; intros Hb; simpl; [constructor|].
  apply workdir_ok_runs_bind.
  - apply Hb. by left.
  - intros _. apply IH. intros y Hy. apply Hb. by right.
Qed.

Lemma workdir_ok_none (w : world) (cmd : list string) : workdir_ok w (Invocation cmd None).
Proof. intros p Hp. discriminate. Qed.

Lemma workdir_ok_runtime (w : world) (cmd : list string) (entry : string) :
  is_runtime w entry = true ->
  workdir_ok w (Invocation cmd (Some (os_path_join (runtimes_dir w) entry))).
Proof.
  intros Hr p [= <-]. split.
  - unfold is_runtime in Hr. by apply andb_true_iff in Hr as [? _].
  - right. by exists entry.
Qed.

Lemma workdir_ok_walk (w : world) (marker : string -> string) (cmd : list string) :
  Forall (workdir_ok w)
    (runs (fst (walk_runtimes (fun p entry =>
                  print (marker entry) ;; subprocess_run cmd (Some p) true) w))).
Proof.
  destruct (is_dir w (runtimes_dir w)) eqn:Hd.
  - destruct (is_dir_inv _ _ Hd) as [entries He].
    rewrite (walk_listed w _ _ (discover_listed w entries He)).
    apply workdir_ok_runs_for. intros t Ht. apply List.filter_In in Ht as [_ Ht].
    unfold bind, print, subprocess_run. simpl.
    apply Forall_cons. split; [by apply workdir_ok_runtime|constructor].
  - rewrite (walk_unlisted w _ Hd). constructor.
Qed.

(** X9: a tool is only ever started in a directory that exists.  Every
    invocation made with a working directory runs in [docs/] (which is a
    directory whenever [docs/book.toml] exists) or in an entry of
    [runtimes/] that is a directory holding [Cargo.toml]. *)
Theorem invocation_workdir_is_directory (c : command) (w : world)
    (i : invocation) (p : path) :
  In i (runs (trace_of (action c) w)) ->
  workdir i = Some p ->
  is_dir w p = true
  /\ (p = docs_dir w
      \/ exists entry, p = os_path_join (runtimes_dir w) entry
                       /\ is_runtime w entry = true).
Proof.
  intros Hin. revert p. change (workdir_ok w i).
  revert i Hin. apply List.Forall_forall. unfold trace_of.
  destruct c as [r|r|k| |k|k| | | | | |q]; unfold action;
    try rewrite build_runtimes_walk;
    try rewrite docs_build_run; try rewrite docs_serve_run;
    try (unfold task_test.test_runtimes; rewrite run_runtimes_walk);
    try (unfold task_test.test_all; rewrite run_runtimes_walk);
    unfold task_build.build_workspace, task_check.check_all, task_check.check_workspace,
      task_check.check_fmt, task_check.check_clippy, task_test.test_unit,
      task_test.test_integration;
    cbv zeta.
  - rewrite runs_with_Flox. apply Forall_singleton, workdir_ok_none.
  - rewrite runs_with_Flox. apply workdir_ok_walk.
  - rewrite runs_with_Flox.
    destruct k; unfold bind, task_check._run_fmt, task_check._run_clippy, subprocess_run;
      simpl; case_spawn w;
      repeat (apply Forall_cons; split; [apply workdir_ok_none|]); constructor.
  - rewrite runs_with_Flox. apply Forall_singleton, workdir_ok_none.
  - rewrite runs_with_Flox. destruct k; apply Forall_singleton, workdir_ok_none.
  - rewrite runs_with_Flox. apply Forall_singleton, workdir_ok_none.
  - rewrite runs_with_Flox.
    apply workdir_ok_runs_bind; [|intros _; apply workdir_ok_walk].
    apply Forall_singleton, workdir_ok_none.
  - rewrite runs_with_Flox. apply Forall_singleton, workdir_ok_none.
  - rewrite runs_with_Flox. apply workdir_ok_walk.
  - rewrite runs_with_Flox. apply Forall_singleton, workdir_ok_none.
  - destruct (path_exists w (docs_marker w)) eqn:Hm; [|constructor].
    rewrite runs_with_Flox.
    apply workdir_ok_runs_bind; [|intros _; constructor].
    apply Forall_singleton. intros p [= <-].
    split; [by apply docs_dir_is_dir|by left].
  - destruct (path_exists w (docs_marker w)) eqn:Hm; [|constructor].
    rewrite runs_with_Flox.
    apply Forall_singleton. intros p [= <-].
    split; [by apply docs_dir_is_dir|by left].
Qed.

Lemma invocation_workdir_is_directory_witness :
  In (build_invocation gamma_world false "alpha")
     (runs (trace_of (action (BuildRuntimes false)) gamma_world))
  /\ workdir (build_invocation gamma_world false "alpha")
     = Some ["proj"; "runtimes"; "alpha"]
  /\ is_dir gamma_world ["proj"; "runtimes"; "alpha"] = true
  /\ (["proj"; "runtimes"; "alpha"] = docs_dir gamma_world
      \/ exists entry, ["proj"; "runtimes"; "alpha"]
                       = os_path_join (runtimes_dir gamma_world) entry
                       /\ is_runtime gamma_world entry = true).
Proof.
  assert (Hin : In (build_invocation gamma_world false "alpha")
                   (runs (trace_of (action (BuildRuntimes false)) gamma_world))).
  { vm_compute. by left. }
  split; [exact Hin|]. split; [reflexivity|].
  apply (invocation_workdir_is_directory (BuildRuntimes false) gamma_world
           (build_invocation gamma_world false "alpha")); [exact Hin|reflexivity].
Defined.

(** ** The commands that make one invocation *)

(** Called directly, [build_workspace], [check_workspace], [check_fmt],
    [check clippy], [test unit] and [test integration] each make exactly
    one invocation, in the inherited working directory and inside the
    guard, print nothing, and end with exit status 0 exactly when that
    invocation succeeds; a failure raises the error of the invocation. *)
Lemma single_invocation_commands (c : command) (w : world) (i : invocation) :
  single_invocation c = Some i ->
  action c w
  = ([FloxEnter "."; Run i; FloxExit "."],
     if succeeds w i then Returned tt else Raised (tool_error w i))
  /\ workdir i = None
  /\ (exit_status (result_of (action c) w) = 0%Z <-> succeeds w i = true).
Proof.
  intros Hc.
  assert (Hrun : action c w
                 = ([FloxEnter "."; Run i; FloxExit "."],
                    if succeeds w i then Returned tt else Raised (tool_error w i))).
  { destruct c as [r|r|k| |k|k| | | | | |p]; try discriminate;
      injection Hc as <-; simpl;
      unfold task_build.build_workspace, task_check.check_workspace,
        task_check.check_fmt, task_check.check_clippy, task_check._run_fmt,
        task_check._run_clippy, task_test.test_unit, task_test.test_integration,
        task_test._run_unit; cbv zeta;
      try destruct r; try destruct k; simpl;
      rewrite with_Flox_run;
      match goal with
      | |- context [subprocess_run ?cmd ?dir true w] =>
          destruct (succeeds w (Invocation cmd dir)) eqn:Hs;
          [rewrite (run_succeeds w _ _ Hs)|rewrite (run_fails_with w _ _ Hs)]
      end; simpl; unfold unit_invocation, integration_invocation in *;
      rewrite ?Hs; reflexivity. }
  split; [exact Hrun|]. split.
  - destruct c as [r|r|k| |k|k| | | | | |p]; try discriminate; by injection Hc as <-.
  - unfold result_of. rewrite Hrun. simpl. by destruct (succeeds w i).
Qed.

(** X11: the commands that make one invocation and [check all] never look
    at the directory tree or the working directory: in two worlds whose
    tools behave alike they run alike. *)
Theorem workspace_commands_ignore_tree (c : command) (w w' : world) :
  reads_tree c = false ->
  (forall i, spawn w i = spawn w' i) ->
  action c w = action c w'.
Proof.
  intros Hc Hs.
  destruct c as [r|r|k| |k|k| | | | | |p]; try discriminate; simpl;
    unfold task_build.build_workspace, task_check.check_all, task_check.check_workspace,
      task_check.check_fmt, task_check.check_clippy, task_check._run_fmt,
      task_check._run_clippy, task_test.test_unit, task_test.test_integration,
      task_test._run_unit, with_Flox, bind, subprocess_run; cbv zeta;
    try destruct k; simpl; by rewrite ?Hs.
Qed.

Lemma workspace_commands_ignore_tree_witness :
  reads_tree (CheckAll true) = false
  /\ (forall i, spawn sample_world i = spawn bare_world i)
  /\ action (CheckAll true) sample_world = action (CheckAll true) bare_world.
Proof.
  split; [reflexivity|]. split; [intros i; reflexivity|].
  apply (workspace_commands_ignore_tree (CheckAll true) sample_world bare_world).
  - reflexivity.
  - intros i. reflexivity.
Defined.

(** ** The docs commands, continued *)

Lemma str_app_assoc (a b c : string) : (a +:+ b) +:+ c = a +:+ (b +:+ c).
Proof.
  induction a as [|x a IH]; [done|].
  change (String x ((a +:+ b) +:+ c) = String x (a +:+ (b +:+ c))).
  by rewrite IH.
Qed.

Lemma path_str_app (p q : path) : path_str (p ++ q) = path_str p +:+ path_str q.
Proof.
  induction p as [|c p IH]; [done|].
  change (path_str ((c :: p) ++ q)) with ("/" +:+ c +:+ path_str (p ++ q)).
  change (path_str (c :: p)) with ("/" +:+ c +:+ path_str p).
  by rewrite IH, !str_app_assoc.
Qed.

(** X12: with [docs/book.toml] present, [docs build] runs [mdbook build]
    in [docs/] inside the guard.  The line "Documentation built to
    <cwd>/docs/book" is printed only after the tool succeeded; when the
    tool fails nothing is printed and its error is raised. *)
Theorem docs_build_with_config (w : world) :
  path_exists w (docs_marker w) = true ->
  let build := Invocation ["mdbook"; "build"] (Some (docs_dir w)) in
  trace_of task_docs.docs_build w
  = [FloxEnter "."; Run build]
      ++ (if succeeds w build
          then [Stdout (nl +:+ "Documentation built to "
                           +:+ (path_str (cwd w) +:+ "/docs/book"))]
          else [])
      ++ [FloxExit "."]
  /\ result_of task_docs.docs_build w
     = if succeeds w build then Returned tt else Raised (tool_error w build).
Proof.
  intros Hm build. unfold trace_of, result_of.
  rewrite docs_build_run, Hm, with_Flox_run.
  assert (Hp : path_str (os_path_join (docs_dir w) "book")
               = path_str (cwd w) +:+ "/docs/book").
  { unfold docs_dir, os_path_join. by rewrite <- app_assoc, path_str_app. }
  destruct (succeeds w build) eqn:Hs.
  - rewrite (bind_returned _ _ w _ tt (run_succeeds w _ _ Hs)).
    unfold print. simpl. by rewrite Hp.
  - by rewrite (bind_raised _ _ w _ _ (run_fails_with w _ _ Hs)).
Qed.

Lemma docs_build_with_config_witness :
  path_exists sample_world (docs_marker sample_world) = true
  /\ let build := Invocation ["mdbook"; "build"] (Some (docs_dir sample_world)) in
     trace_of task_docs.docs_build sample_world
     = [FloxEnter "."; Run build]
         ++ (if succeeds sample_world build
             then [Stdout (nl +:+ "Documentation built to "
                              +:+ (path_str (cwd sample_world) +:+ "/docs/book"))]
             else [])
         ++ [FloxExit "."]
     /\ result_of task_docs.docs_build sample_world
        = if succeeds sample_world build then Returned tt
          else Raised (tool_error sample_world build).
Proof.
  split; [reflexivity|].
  apply (docs_build_with_config sample_world). reflexivity.
Defined.

(** Called directly without [docs/book.toml], [docs_serve] behaves like
    [docs build]: whatever the port, it starts no process, does not enter
    the guard, prints the error line and returns normally. *)
Lemma docs_serve_without_config (port : option string) (w : world) :
  path_exists w (docs_marker w) = false ->
  task_docs.docs_serve port w
  = ([Stdout "Error: docs/book.toml not found"], Returned tt)
  /\ task_docs.docs_serve port w = task_docs.docs_build w.
Proof.
  intros H. by rewrite docs_serve_run, docs_build_run, H.
Qed.


(** * The commands as the dispatcher runs them *)

(** ** Keyword binding *)

(** Three functions are declared with an argument whose [name] is no
    parameter of theirs; whatever the command line, the keyword is passed
    and rejected. *)
Lemma unexpected_keyword_task (t : task) (cl : cmdline) :
  unexpected_keyword t cl
  = match t with
    | TBuildWorkspace | TBuildRuntimes => Some "--release"
    | TDocsServe => Some "--port"
    | _ => None
    end.
Proof. destruct t; reflexivity. Qed.

(** [check_only] is declared without [is_flag=True]: the keyword always
    carries [None], and [not None] is true. *)
Lemma bound_check_only (t : task) (cl : cmdline) :
  arguments t = [Argument "check_only" (Some "check-only") None false false] ->
  bound_flag t cl "check_only" = false.
Proof. unfold bound_flag, kwargs. by intros ->. Qed.

Lemma dispatch_run (t : task) (cl : cmdline) :
  dispatch t cl
  = match t with
    | TBuildWorkspace | TBuildRuntimes => raise (TypeError "--release")
    | TDocsServe => raise (TypeError "--port")
    | TCheckAll => task_check.check_all false
    | TCheckWorkspace => task_check.check_workspace
    | TCheckFmt => task_check.check_fmt false
    | TCheckClippy => task_check.check_clippy false
    | TTestAll => task_test.test_all
    | TTestUnit => task_test.test_unit
    | TTestRuntimes => task_test.test_runtimes
    | TTestIntegration => task_test.test_integration
    | TDocsBuild => task_docs.docs_build
    end.
Proof.
  unfold dispatch. rewrite unexpected_keyword_task.
  destruct t; try reflexivity; simpl; by rewrite bound_check_only.
Qed.

(** A command that binds is the direct call with the bound values. *)
Lemma dispatch_binds (t : task) (cl : cmdline) :
  binds t = true ->
  dispatch t cl = action (call_of t cl)
  /\ needs_discovery (call_of t cl) = reaches_discovery t.
Proof.
  unfold binds, dispatch. rewrite !unexpected_keyword_task.
  destruct t; try discriminate; done.
Qed.

Lemma dispatch_unbound (t : task) (cl : cmdline) (w : world) :
  binds t = false ->
  exists k, unexpected_keyword t cl = Some k
            /\ dispatch t cl w = ([], Raised (TypeError k)).
Proof.
  unfold binds, dispatch. rewrite !unexpected_keyword_task.
  destruct t; try discriminate; intros _; eexists; (split; [reflexivity|done]).
Qed.

(** ** Short circuit *)

(** C1 (as the code has it): for every command whose keywords bind to its
    function, if every invocation it makes succeeds and, for a command that
    lists [runtimes/], that directory can be listed, the exit status is 0.
    For every command and command line, if an invocation fails, the exit
    status is non-zero and no invocation follows the failing one, in
    hand-written sequences and in the loop over targets alike. *)
Theorem command_short_circuit (t : task) (cl : cmdline) (w : world) :
  (binds t = true ->
   (reaches_discovery t = true -> is_dir w (runtimes_dir w) = true) ->
   (forall i, In i (runs (trace_of (dispatch t cl) w)) -> succeeds w i = true) ->
   exit_status (result_of (dispatch t cl) w) = 0%Z)
  /\ (forall pre i post,
        runs (trace_of (dispatch t cl) w) = pre ++ i :: post ->
        succeeds w i = false ->
        exit_status (result_of (dispatch t cl) w) <> 0%Z /\ post = []).
Proof.
  destruct (binds t) eqn:Hb.
  - destruct (dispatch_binds t cl Hb) as [-> Hd].
    destruct (short_circuit (call_of t cl) w) as [H1 H2]. split.
    + intros _ Hlist Hall. apply H1; [by rewrite Hd|exact Hall].
    + exact H2.
  - destruct (dispatch_unbound t cl w Hb) as (k & _ & Hrun). split; [discriminate|].
    intros pre i post H. unfold trace_of in H. rewrite Hrun in H. by destruct pre.
Qed.

Lemma command_short_circuit_witness :
  exit_status (result_of (dispatch TTestRuntimes []) sample_world) = 0%Z
  /\ (exit_status (result_of (dispatch TTestRuntimes []) gamma_world) <> 0%Z
      /\ @nil invocation = []).
Proof.
  split.
  - apply (proj1 (command_short_circuit TTestRuntimes [] sample_world)).
    + reflexivity.
    + intros _. reflexivity.
    + intros i _. reflexivity.
  - apply (proj2 (command_short_circuit TTestRuntimes [] gamma_world)
             [test_invocation gamma_world "alpha"]
             (test_invocation gamma_world "gamma") []).
    + vm_compute. reflexivity.
    + vm_compute. reflexivity.
Defined.

(** ** Discovery, in the function that runs it *)

(** C4: in any tree in which [runtimes/] is a directory, the targets
    [_run_runtimes] works on are exactly the entries that are directories
    holding [Cargo.toml] (no plain file, no directory without the
    manifest), each once, in lexicographic order: its trace is marker and
    invocation for these targets, in this order, up to the first failure.
    When every target succeeds the working directories of its invocations
    are those of all targets, and a second run right after the first works
    on the same targets in the same order.  The order in which the
    directory is listed does not matter. *)
Theorem run_runtimes_discovery (w : world) (entries : gmap string node) :
  resolve (root w) (runtimes_dir w) = Some (Dir entries) ->
  exists targets,
    (forall name, In name targets <->
       exists sub, entries !! name = Some (Dir sub)
                   /\ is_Some (sub !! "Cargo.toml"))
    /\ StronglySorted str_le targets
    /\ NoDup targets
    /\ trace_of task_test._run_runtimes w
       = flat_map (fun t => [Stdout (nl +:+ "--- Testing runtime: " +:+ t +:+ " ---");
                             Run (Invocation ["cargo"; "test"]
                                             (Some (runtimes_dir w ++ [t])))])
           (reached w (test_invocation w) targets)
    /\ ((forall t, In t targets -> succeeds w (test_invocation w t) = true) ->
        map workdir (runs (trace_of task_test._run_runtimes w))
        = map (fun t => Some (runtimes_dir w ++ [t])) targets
        /\ trace_of (task_test._run_runtimes ;; task_test._run_runtimes) w
           = trace_of task_test._run_runtimes w ++ trace_of task_test._run_runtimes w)
    /\ (forall listing, listing ≡ₚ map fst (map_to_list entries) ->
          List.filter (is_runtime w) (sorted listing) = targets).
Proof.
  intros Hd.
  destruct (discovery_exact_sorted_stable w entries Hd)
    as (targets & Hdisc & Hmem & Hsorted & Hnd & _ & Hperm).
  exists targets.
  assert (Htrace : trace_of task_test._run_runtimes w
                   = flat_map (fun t => [Stdout (test_marker t); Run (test_invocation w t)])
                       (reached w (test_invocation w) targets)).
  { unfold trace_of. rewrite run_runtimes_walk, (walk_listed w _ targets Hdisc).
    exact (for_targets_trace w test_marker _
             (fun t => os_path_join (runtimes_dir w) t) targets). }
  split; [exact Hmem|]. split; [exact Hsorted|]. split; [exact Hnd|].
  split; [exact Htrace|]. split; [|exact Hperm].
  intros Hall. split.
  - rewrite Htrace, runs_flat_map_targets, (reached_all w _ targets Hall).
    rewrite map_map. reflexivity.
  - assert (Hres : snd (task_test._run_runtimes w) = Returned tt).
    { rewrite run_runtimes_walk, (walk_listed w _ targets Hdisc).
      rewrite (for_targets_result w test_marker _
                 (fun t => os_path_join (runtimes_dir w) t) targets).
      fold (test_invocation w).
      by rewrite (proj2 (first_failure_none w (test_invocation w) targets) Hall). }
    unfold trace_of. destruct (task_test._run_runtimes w) as [tr r] eqn:E.
    simpl in Hres. subst r.
    by rewrite (bind_returned _ _ w tr tt E), E.
Qed.

Lemma run_runtimes_discovery_witness :
  resolve (root sample_world) (runtimes_dir sample_world) = Some (Dir sample_entries)
  /\ exists targets,
    (forall name, In name targets <->
       exists sub, sample_entries !! name = Some (Dir sub)
                   /\ is_Some (sub !! "Cargo.toml"))
    /\ StronglySorted str_le targets
    /\ NoDup targets
    /\ trace_of task_test._run_runtimes sample_world
       = flat_map (fun t => [Stdout (nl +:+ "--- Testing runtime: " +:+ t +:+ " ---");
                             Run (Invocation ["cargo"; "test"]
                                             (Some (runtimes_dir sample_world ++ [t])))])
           (reached sample_world (test_invocation sample_world) targets)
    /\ ((forall t, In t targets ->
           succeeds sample_world (test_invocation sample_world t) = true) ->
        map workdir (runs (trace_of task_test._run_runtimes sample_world))
        = map (fun t => Some (runtimes_dir sample_world ++ [t])) targets
        /\ trace_of (task_test._run_runtimes ;; task_test._run_runtimes) sample_world
           = trace_of task_test._run_runtimes sample_world
               ++ trace_of task_test._run_runtimes sample_world)
    /\ (forall listing, listing ≡ₚ map fst (map_to_list sample_entries) ->
          List.filter (is_runtime sample_world) (sorted listing) = targets).
Proof.
  split; [reflexivity|].
  apply (run_runtimes_discovery sample_world sample_entries). reflexivity.
Defined.

(** The scenario of the specification, read off the run of
    [test runtimes]: [alpha/] and [gamma/] are worked on, in this order;
    [beta/] (no manifest) and the plain file are not. *)
Example test_runtimes_sample :
  map workdir (runs (trace_of (dispatch TTestRuntimes []) sample_world))
  = [Some ["proj"; "runtimes"; "alpha"]; Some ["proj"; "runtimes"; "gamma"]].
Proof. vm_compute. reflexivity. Qed.

(** ** Flags that never arrive *)

(** C6 (the code at the failing input): [check_only] is declared without
    [is_flag=True], so the function receives [None] whether or not
    [--check-only] is on the command line.  On every command line
    [check fmt] runs [cargo fmt --all] without [-- --check] and
    [check clippy] runs with [--fix --allow-dirty]; [check all] with the
    flag runs as without it. *)
Theorem check_only_never_arrives (cl : cmdline) (w : world) :
  runs (trace_of (dispatch TCheckFmt cl) w) = [Invocation ["cargo"; "fmt"; "--all"] None]
  /\ runs (trace_of (dispatch TCheckClippy cl) w)
     = [Invocation ["cargo"; "clippy"; "--workspace"; "--fix"; "--allow-dirty";
                    "--"; "-D"; "warnings"] None]
  /\ dispatch TCheckAll cl w = dispatch TCheckAll [] w
  /\ runs (trace_of (dispatch TCheckFmt with_check_only) w)
     = runs (trace_of (dispatch TCheckFmt []) w).
Proof.
  unfold trace_of. rewrite !dispatch_run.
  unfold task_check.check_fmt, task_check.check_clippy.
  by rewrite !runs_with_Flox.
Qed.

(** C8 (the code at the failing input): [build_runtimes] is declared with
    an argument named ["--release"], which is no parameter of the function.
    With or without [--release], in every world, [build runtimes] raises
    [TypeError] at the call: no guard, no listing, no marker, no [cargo],
    and a non-zero exit status. *)
Theorem build_runtimes_stops_at_binding (cl : cmdline) (w : world) :
  dispatch TBuildRuntimes cl w = ([], Raised (TypeError "--release"))
  /\ runs (trace_of (dispatch TBuildRuntimes with_release) sample_world) = []
  /\ runs (trace_of (dispatch TBuildRuntimes []) sample_world) = []
  /\ exit_status (result_of (dispatch TBuildRuntimes cl) w) <> 0%Z.
Proof. by rewrite !dispatch_run. Qed.

(** C9 (the code at the failing input): [docs_serve] is declared with an
    argument named ["--port"], which is no parameter of the function.  With
    [docs/book.toml] present, with or without a port on the command line,
    [docs serve] raises [TypeError] at the call and starts no [mdbook]. *)
Theorem docs_serve_stops_at_binding (cl : cmdline) :
  path_exists sample_world (docs_marker sample_world) = true
  /\ dispatch TDocsServe cl sample_world = ([], Raised (TypeError "--port"))
  /\ runs (trace_of (dispatch TDocsServe (with_port "8080")) sample_world) = []
  /\ runs (trace_of (dispatch TDocsServe []) sample_world) = [].
Proof. by rewrite !dispatch_run. Qed.

(** C10 (the code at the failing input): in a project whose [runtimes/]
    holds nothing that qualifies, [test runtimes] starts no process and
    ends with exit status 0; [build runtimes] starts no process either, but
    ends with a non-zero status, because its call fails at keyword
    binding. *)
Theorem build_runtimes_idle_exits_nonzero :
  (runs (trace_of (dispatch TTestRuntimes []) idle_world) = []
   /\ exit_status (result_of (dispatch TTestRuntimes []) idle_world) = 0%Z)
  /\ (runs (trace_of (dispatch TBuildRuntimes []) idle_world) = []
      /\ exit_status (result_of (dispatch TBuildRuntimes []) idle_world) <> 0%Z).
Proof. vm_compute. repeat split; discriminate. Qed.

(** ** A missing [runtimes/] *)

(** C7 (as the code has it): when [runtimes/] is missing or not a
    directory, [test runtimes] and [test all] end with a non-zero status
    and make no per-target invocation, only the invocations of the stage
    before discovery ([test all] runs the unit tests first).  When that
    stage succeeds, the command fails with the error raised by listing the
    directory; the missing directory is never taken for an empty list. *)
Theorem missing_runtimes_dir_command (t : task) (cl : cmdline) (w : world) :
  reaches_discovery t = true ->
  is_dir w (runtimes_dir w) = false ->
  exit_status (result_of (dispatch t cl) w) <> 0%Z
  /\ runs (trace_of (dispatch t cl) w) = stage_before_discovery t
  /\ ((forall i, In i (stage_before_discovery t) -> succeeds w i = true) ->
      result_of (dispatch t cl) w = Raised (listing_error w (runtimes_dir w))
      /\ is_discovery_error (listing_error w (runtimes_dir w)) = true).
Proof.
  intros Ht Hd. rewrite dispatch_run.
  destruct t; try discriminate.
  - exact (missing_runtimes_dir TestAll w eq_refl Hd).
  - exact (missing_runtimes_dir TestRuntimes w eq_refl Hd).
Qed.

Lemma missing_runtimes_dir_command_witness :
  reaches_discovery TTestAll = true
  /\ is_dir bare_world (runtimes_dir bare_world) = false
  /\ exit_status (result_of (dispatch TTestAll []) bare_world) <> 0%Z
  /\ runs (trace_of (dispatch TTestAll []) bare_world) = stage_before_discovery TTestAll
  /\ ((forall i, In i (stage_before_discovery TTestAll) -> succeeds bare_world i = true) ->
      result_of (dispatch TTestAll []) bare_world
      = Raised (listing_error bare_world (runtimes_dir bare_world))
      /\ is_discovery_error (listing_error bare_world (runtimes_dir bare_world)) = true).
Proof.
  split; [reflexivity|]. split; [reflexivity|].
  apply (missing_runtimes_dir_command TTestAll [] bare_world); reflexivity.
Defined.

(** ** test runtimes: result and exit status *)

(** X2: with [runtimes/] listed, [test runtimes] returns when the tests of
    no target fail, and otherwise raises the error of the first target, in
    sorted order, whose tests fail: [CalledProcessError] with that
    invocation's return code and argument vector. *)
Theorem test_runtimes_result (w : world) (targets : list string) :
  discover w = ([], Returned targets) ->
  result_of task_test.test_runtimes w
  = match first_failure w (test_invocation w) targets with
    | Some t => Raised (tool_error w (test_invocation w t))
    | None => Returned tt
    end.
Proof. intros Hdisc. exact (proj2 (runtime_commands_result false w targets Hdisc)). Qed.

Lemma test_runtimes_result_witness :
  discover gamma_world = ([], Returned ["alpha"; "gamma"; "omega"])
  /\ result_of task_test.test_runtimes gamma_world
     = match first_failure gamma_world (test_invocation gamma_world)
               ["alpha"; "gamma"; "omega"] with
       | Some t => Raised (tool_error gamma_world (test_invocation gamma_world t))
       | None => Returned tt
       end.
Proof.
  split; [vm_compute; reflexivity|].
  apply (test_runtimes_result gamma_world ["alpha"; "gamma"; "omega"]).
  vm_compute; reflexivity.
Defined.

(** X3: with [runtimes/] listed, [test runtimes] ends with exit status 0
    exactly when the tests of every discovered target succeed, and then
    every discovered target was tested, once each, in sorted order. *)
Theorem test_runtimes_exit_zero_iff (w : world) (targets : list string) :
  discover w = ([], Returned targets) ->
  (exit_status (result_of task_test.test_runtimes w) = 0%Z <->
   forall t, In t targets -> succeeds w (test_invocation w t) = true)
  /\ (exit_status (result_of task_test.test_runtimes w) = 0%Z ->
      runs (trace_of task_test.test_runtimes w) = map (test_invocation w) targets).
Proof.
  intros Hdisc.
  exact (proj2 (proj2 (runtime_commands_exit_zero_iff false w targets Hdisc))).
Qed.

Lemma test_runtimes_exit_zero_iff_witness :
  discover sample_world = ([], Returned ["alpha"; "gamma"])
  /\ (exit_status (result_of task_test.test_runtimes sample_world) = 0%Z <->
      forall t, In t ["alpha"; "gamma"] ->
                succeeds sample_world (test_invocation sample_world t) = true)
  /\ (exit_status (result_of task_test.test_runtimes sample_world) = 0%Z ->
      runs (trace_of task_test.test_runtimes sample_world)
      = map (test_invocation sample_world) ["alpha"; "gamma"]).
Proof.
  split; [vm_compute; reflexivity|].
  apply (test_runtimes_exit_zero_iff sample_world ["alpha"; "gamma"]).
  vm_compute; reflexivity.
Defined.

(** ** Every command: errors, the guard, single tools *)

(** X7: a command raises in one of three ways only.  Its call fails at
    keyword binding, with [TypeError] for the keyword the function lacks
    and an empty trace; or its run reaches [os.listdir], [runtimes/] is not
    a directory, and the exception is the one [os.listdir] raises; or the
    last invocation it made failed, and the exception is that invocation's
    [CalledProcessError] (with its return code and argument vector) or
    launch error. *)
Theorem command_error_origin (t : task) (cl : cmdline) (w : world) (e : exn) :
  result_of (dispatch t cl) w = Raised e ->
  (exists k, unexpected_keyword t cl = Some k
             /\ e = TypeError k
             /\ trace_of (dispatch t cl) w = [])
  \/ (reaches_discovery t = true
      /\ is_dir w (runtimes_dir w) = false
      /\ e = listing_error w (runtimes_dir w))
  \/ (exists i, last (runs (trace_of (dispatch t cl) w)) = Some i
                /\ succeeds w i = false
                /\ e = tool_error w i).
Proof.
  intros He. destruct (binds t) eqn:Hb.
  - destruct (dispatch_binds t cl Hb) as [Hrun Hd]. rewrite Hrun in *.
    right. destruct (raised_error_origin _ w e He) as [(H1 & H2 & H3)|H].
    + left. by rewrite <- Hd.
    + by right.
  - left. destruct (dispatch_unbound t cl w Hb) as (k & Hk & Hrun).
    exists k. unfold result_of, trace_of in *. rewrite Hrun in *.
    injection He as <-. done.
Qed.

Lemma command_error_origin_witness :
  result_of (dispatch TTestRuntimes []) gamma_world
  = Raised (CalledProcessError 101 ["cargo"; "test"])
  /\ ((exists k, unexpected_keyword TTestRuntimes [] = Some k
                 /\ CalledProcessError 101 ["cargo"; "test"] = TypeError k
                 /\ trace_of (dispatch TTestRuntimes []) gamma_world = [])
      \/ (reaches_discovery TTestRuntimes = true
          /\ is_dir gamma_world (runtimes_dir gamma_world) = false
          /\ CalledProcessError 101 ["cargo"; "test"]
             = listing_error gamma_world (runtimes_dir gamma_world))
      \/ (exists i, last (runs (trace_of (dispatch TTestRuntimes []) gamma_world)) = Some i
                    /\ succeeds gamma_world i = false
                    /\ CalledProcessError 101 ["cargo"; "test"] = tool_error gamma_world i)).
Proof.
  split; [vm_compute; reflexivity|].
  apply (command_error_origin TTestRuntimes [] gamma_world).
  vm_compute; reflexivity.
Defined.

(** X8: no tool runs outside the activated environment.  The trace of a
    command whose keywords bind is one guard entry, then events that are
    not guard events (all invocations and all progress output), then one
    guard exit, except for [docs build] without [docs/book.toml], whose
    trace is the single error line.  A command whose call fails at keyword
    binding has an empty trace. *)
Theorem command_inside_guard (t : task) (cl : cmdline) (w : world) :
  match unexpected_keyword t cl with
  | Some _ => trace_of (dispatch t cl) w = []
  | None =>
      if config_missing t w
      then trace_of (dispatch t cl) w = [Stdout "Error: docs/book.toml not found"]
      else exists mid,
             trace_of (dispatch t cl) w = FloxEnter "." :: mid ++ [FloxExit "."]
             /\ Forall (fun e => is_guard_event e = false) mid
  end.
Proof.
  destruct (binds t) eqn:Hb.
  - destruct (dispatch_binds t cl Hb) as [Hrun _]. rewrite Hrun.
    pose proof (invocations_inside_guard (call_of t cl) w) as H.
    revert Hb H. unfold binds. rewrite !unexpected_keyword_task.
    by destruct t.
  - destruct (dispatch_unbound t cl w Hb) as (k & -> & Hrun).
    unfold trace_of. by rewrite Hrun.
Qed.

(** X10: [check workspace], [check fmt], [check clippy], [test unit] and
    [test integration] each make exactly one invocation, the same on every
    command line, in the inherited working directory and inside the guard,
    print nothing, and end with exit status 0 exactly when that invocation
    succeeds; a failure raises the error of the invocation.  [check fmt]
    and [check clippy] always run in apply mode. *)
Theorem single_tool_commands (t : task) (cl : cmdline) (w : world) (i : invocation) :
  task_invocation t = Some i ->
  dispatch t cl w
  = ([FloxEnter "."; Run i; FloxExit "."],
     if succeeds w i then Returned tt else Raised (tool_error w i))
  /\ workdir i = None
  /\ (exit_status (result_of (dispatch t cl) w) = 0%Z <-> succeeds w i = true).
Proof.
  intros Ht. unfold result_of. rewrite dispatch_run.
  destruct t; try discriminate; injection Ht as <-.
  - exact (single_invocation_commands CheckWorkspace w _ eq_refl).
  - exact (single_invocation_commands (CheckFmt false) w _ eq_refl).
  - exact (single_invocation_commands (CheckClippy false) w _ eq_refl).
  - exact (single_invocation_commands TestUnit w _ eq_refl).
  - exact (single_invocation_commands TestIntegration w _ eq_refl).
Qed.

Lemma single_tool_commands_witness :
  task_invocation TCheckFmt = Some (Invocation ["cargo"; "fmt"; "--all"] None)
  /\ dispatch TCheckFmt with_check_only failing_bare_world
     = ([FloxEnter "."; Run (Invocation ["cargo"; "fmt"; "--all"] None); FloxExit "."],
        if succeeds failing_bare_world (Invocation ["cargo"; "fmt"; "--all"] None)
        then Returned tt
        else Raised (tool_error failing_bare_world
                       (Invocation ["cargo"; "fmt"; "--all"] None)))
  /\ workdir (Invocation ["cargo"; "fmt"; "--all"] None) = None
  /\ (exit_status (result_of (dispatch TCheckFmt with_check_only) failing_bare_world) = 0%Z
      <-> succeeds failing_bare_world (Invocation ["cargo"; "fmt"; "--all"] None) = true).
Proof.
  split; [reflexivity|].
  apply (single_tool_commands TCheckFmt with_check_only failing_bare_world). reflexivity.
Defined.

(** X13: without [docs/book.toml], [docs serve] does not behave like
    [docs build].  [docs build] prints the error line and returns, with
    exit status 0; [docs serve], on every command line, fails at keyword
    binding before the test for the file: it prints nothing, starts no
    process and ends with a non-zero status. *)
Theorem docs_serve_never_tests_config (cl : cmdline) (w : world) :
  path_exists w (docs_marker w) = false ->
  (dispatch TDocsBuild cl w = ([Stdout "Error: docs/book.toml not found"], Returned tt)
   /\ exit_status (result_of (dispatch TDocsBuild cl) w) = 0%Z)
  /\ (dispatch TDocsServe cl w = ([], Raised (TypeError "--port"))
      /\ exit_status (result_of (dispatch TDocsServe cl) w) <> 0%Z).
Proof.
  intros H. unfold result_of. rewrite !dispatch_run, docs_build_run, H. by simpl.
Qed.

Lemma docs_serve_never_tests_config_witness :
  path_exists bare_world (docs_marker bare_world) = false
  /\ (dispatch TDocsBuild [] bare_world
      = ([Stdout "Error: docs/book.toml not found"], Returned tt)
      /\ exit_status (result_of (dispatch TDocsBuild []) bare_world) = 0%Z)
  /\ (dispatch TDocsServe [] bare_world = ([], Raised (TypeError "--port"))
      /\ exit_status (result_of (dispatch TDocsServe []) bare_world) <> 0%Z).
Proof.
  split; [reflexivity|].
  apply (docs_serve_never_tests_config [] bare_world). reflexivity.
Defined.
